(** * A function-calling dispatcher: tools, registry and call routing

    Shallow embedding of the three JavaScript sources

      - [email-tool.js]   : class [EmailTool]
      - [weather-tool.js] : class [WeatherTool]
      - [tool-manager.js] : class [ToolManager]

    JavaScript values are an inductive type of data values, strings are
    sequences of UTF-16 code units, a [throw] is the [Throw] outcome of a
    computation, the body of an [async] function is modelled by the outcome
    that settles its promise ([Normal] = fulfilled, [Throw] = rejected), and
    the [Map] held by the manager is an association list kept in insertion
    order.  The manager's methods run in a state-and-exception monad over
    that [Map].  What the [execute] of a tool throws is any value, an
    [Error] instance or not.

    [Logger] (utils/logger.js) only writes to a sink; its calls return
    nothing that the code uses and are left out of the embedding. *)

From Stdlib Require Import String Ascii DecimalString.
From Stdlib Require Import ZArith List Bool Lia.
Import ListNotations.
Local Open Scope Z_scope.
#[local] Set Warnings "-register-all".

(* ================================================================== *)
(** ** Strings *)

Module JsString.

(** A JavaScript string: its UTF-16 code units, as [charCodeAt] reads them. *)
Definition jsstring := list Z.

(** A string literal of the source (code units below 256). *)
Definition js (s : string) : jsstring :=
  map (fun a => Z.of_N (N_of_ascii a)) (list_ascii_of_string s).

(** The double-quote character inside a template literal. *)
Definition dquote : jsstring := [34].

Fixpoint str_eqb (a b : jsstring) : bool :=
  match a, b with
  | [], [] => true
  | x :: a', y :: b' => (x =? y) && str_eqb a' b'
  | _, _ => false
  end.

(** [String(n)] for an integer [n]. *)
Definition Number_toString (n : Z) : jsstring :=
  js (NilZero.string_of_int (Z.to_int n)).

(** [s.padStart(targetLength, padString)]. *)
Definition padStart (targetLength : nat) (padString s : jsstring) : jsstring :=
  let missing := (targetLength - length s)%nat in
  match padString with
  | [] => s
  | _ =>
      firstn missing (concat (repeat padString missing)) ++ s
  end.

End JsString.
Import JsString.

(* ================================================================== *)
(** ** Values, errors and outcomes *)

(** Data values.  Numbers are the integer-valued ones (magnitude below
    2^53); a property bag keeps its properties in creation order. *)
Inductive JsValue : Type :=
| JUndefined
| JNull
| JBool (b : bool)
| JNum (n : Z)
| JStr (s : jsstring)
| JArr (elements : list JsValue)
| JObj (props : list (jsstring * JsValue)).

(** [ErrorCodes] of utils/error-boundary.js: the two members the manager
    uses. *)
Inductive ErrorCode : Type := INVALID_STATE | INVALID_PARAMETER.

(** Faults raised by the runtime itself.  *)
Inductive Fault : Type :=
| NotAFunction (callee : jsstring)
| CannotDestructure (prop_name source : jsstring) (v : JsValue)
| CannotReadProperty (prop_name : jsstring) (v : JsValue)
| CannotConvertToPrimitive.

(** The [Error] instances: every [throw] of the sources raises
    [new Error(..)] or [new ApplicationError(..)], and a runtime fault is a
    [TypeError].  What the [execute] of an arbitrary tool may throw besides
    is [Tool.Thrown]. *)
Inductive JsError : Type :=
| Error (msg : jsstring)
| TypeError (f : Fault)
| ApplicationError (msg : jsstring) (code : ErrorCode).

Inductive Completion (A : Type) : Type :=
| Normal (a : A)
| Throw (e : JsError).
Arguments Normal {A} a.
Arguments Throw {A} e.

Module JsRuntime.

Definition typeof_name (v : JsValue) : jsstring :=
  match v with
  | JUndefined => js "undefined"
  | JNull => js "null"
  | _ => js "object"
  end.

(** The text of a runtime [TypeError] is engine-defined; this is V8's
    wording (the sources run under Node: nodemailer, [process.env]). *)
Definition fault_message (f : Fault) : jsstring :=
  match f with
  | NotAFunction callee => callee ++ js " is not a function"
  | CannotDestructure p src v =>
      js "Cannot destructure property '" ++ p ++ js "' of '" ++ src
         ++ js "' as it is " ++ typeof_name v ++ js "."
  | CannotReadProperty p v =>
      js "Cannot read properties of " ++ typeof_name v
         ++ js " (reading '" ++ p ++ js "')"
  | CannotConvertToPrimitive => js "Cannot convert object to primitive value"
  end.

(** [error.message].  [ApplicationError] (utils/error-boundary.js) is taken
    to extend [Error] and hand its first argument to it. *)
Definition message (e : JsError) : jsstring :=
  match e with
  | Error msg => msg
  | TypeError f => fault_message f
  | ApplicationError msg _ => msg
  end.

(** ToBoolean. *)
Definition truthy (v : JsValue) : bool :=
  match v with
  | JUndefined | JNull => false
  | JBool b => b
  | JNum n => negb (n =? 0)
  | JStr s => negb (str_eqb s [])
  | JArr _ | JObj _ => true
  end.

Definition nullish (v : JsValue) : bool :=
  match v with
  | JUndefined | JNull => true
  | _ => false
  end.

(** Own-property lookup in a property bag. *)
Fixpoint lookup (k : jsstring) (props : list (jsstring * JsValue))
  : option JsValue :=
  match props with
  | [] => None
  | (k', v) :: rest => if str_eqb k k' then Some v else lookup k rest
  end.

(** ['k' in o], for own properties. *)
Definition has_prop (k : jsstring) (v : JsValue) : bool :=
  match v with
  | JObj props => match lookup k props with Some _ => true | None => false end
  | _ => false
  end.

(** [v.k] for a property name [k] that no built-in prototype defines:
    the value of the own property, else [undefined]. *)
Definition get_prop (k : jsstring) (v : JsValue) : JsValue :=
  match v with
  | JObj props => match lookup k props with Some x => x | None => JUndefined end
  | _ => JUndefined
  end.

(** [a || b]. *)
Definition or_else (a b : JsValue) : JsValue := if truthy a then a else b.

(** Array.prototype.join over already converted elements. *)
Fixpoint join (sep : jsstring) (parts : list jsstring) : jsstring :=
  match parts with
  | [] => []
  | [p] => p
  | p :: rest => p ++ sep ++ join sep rest
  end.

(** ToString, as a template literal [`${v}`] applies it.  A property bag
    whose own [toString] is data (hence not callable) has no primitive
    form; an array joins its elements with [,], an absent or null element
    giving the empty string. *)
Fixpoint ToString (v : JsValue) : Completion jsstring :=
  match v with
  | JUndefined => Normal (js "undefined")
  | JNull => Normal (js "null")
  | JBool true => Normal (js "true")
  | JBool false => Normal (js "false")
  | JNum n => Normal (Number_toString n)
  | JStr s => Normal s
  | JArr elements =>
      let fix each (xs : list JsValue) : Completion (list jsstring) :=
        match xs with
        | [] => Normal []
        | x :: rest =>
            match (if nullish x then Normal [] else ToString x) with
            | Throw e => Throw e
            | Normal s =>
                match each rest with
                | Throw e => Throw e
                | Normal ss => Normal (s :: ss)
                end
            end
        end in
      match each elements with
      | Throw e => Throw e
      | Normal parts => Normal (join (js ",") parts)
      end
  | JObj props =>
      match lookup (js "toString") props with
      | Some _ => Throw (TypeError CannotConvertToPrimitive)
      | None => Normal (js "[object Object]")
      end
  end.

End JsRuntime.
Import JsRuntime.

(** Sequencing of computations that may throw, and [try]/[catch]. *)
Definition bind {A B} (c : Completion A) (k : A -> Completion B) : Completion B :=
  match c with
  | Normal a => k a
  | Throw e => Throw e
  end.

Definition try_catch {A} (body : Completion A) (handler : JsError -> Completion A)
  : Completion A :=
  match body with
  | Normal a => Normal a
  | Throw e => handler e
  end.

Notation "x <- c ;; k" := (bind c (fun x => k))
  (at level 61, c at next level, right associativity).

(** Integer arithmetic of JavaScript numbers. *)
Module JsNumber.

(** ToInt32: reduction modulo 2^32 into the signed 32-bit range. *)
Definition ToInt32 (x : Z) : Z := (x + 2 ^ 31) mod 2 ^ 32 - 2 ^ 31.

(** [a << b]. *)
Definition shl (a b : Z) : Z := ToInt32 (Z.shiftl (ToInt32 a) (Z.land b 31)).

(** [a & b]. *)
Definition band (a b : Z) : Z := Z.land (ToInt32 a) (ToInt32 b).

(** [a % b] on integers, [b] not zero: the sign follows the dividend. *)
Definition rem (a b : Z) : Z := Z.rem a b.

(** [Math.round] of an integer. *)
Definition Math_round (x : Z) : Z := x.

(** [array[i]] for a number [i]. *)
Definition index {A} (array : list A) (i : Z) : option A :=
  if i <? 0 then None else nth_error array (Z.to_nat i).

End JsNumber.
Import JsNumber.

(* ================================================================== *)
(** ** Tools *)

(** A tool as the manager sees it: any value.  An object may have the two
    methods; [None] stands for a member that is absent or not a function.
    A method is given by the outcome of calling it.  The manager never
    looks at what [getDeclaration] throws, so an [Error] stands for it; it
    does read what [execute] throws, which may be any value. *)
Module Tool.

(** What [execute] throws, or rejects its promise with: an [Error]
    instance, or any other value ([null], [undefined], a string, a
    property bag). *)
Inductive Thrown : Type :=
| ErrorObject (e : JsError)
| OtherValue (v : JsValue).

(** How [await tool.execute(args)] ends. *)
Inductive Settled : Type :=
| Fulfilled (result : JsValue)
| Rejected (reason : Thrown).

(** The outcome of a method of the sources, which throws [Error]
    instances only, as the awaiting caller sees it. *)
Definition settle (c : Completion JsValue) : Settled :=
  match c with
  | Normal result => Fulfilled result
  | Throw e => Rejected (ErrorObject e)
  end.

(** [error.message] for a caught [error]: reading a property of [null]
    or [undefined] is a fault; another value that is no [Error] gives its
    own [message] property, if any. *)
Definition read_message (error : Thrown) : Completion JsValue :=
  match error with
  | ErrorObject e => Normal (JStr (message e))
  | OtherValue v =>
      if nullish v
      then Throw (TypeError (CannotReadProperty (js "message") v))
      else Normal (get_prop (js "message") v)
  end.

(** [try { const result = await ..; body } catch (error) { handler }]. *)
Definition try_await {A} (settled : Settled) (body : JsValue -> Completion A)
  (handler : Thrown -> Completion A) : Completion A :=
  match settled with
  | Fulfilled result =>
      match body result with
      | Normal a => Normal a
      | Throw e => handler (ErrorObject e)
      end
  | Rejected reason => handler reason
  end.

Record ToolObject : Type := {
  getDeclaration : option (unit -> Completion JsValue);
  execute : option (JsValue -> Settled)
}.

Inductive ToolValue : Type :=
| Plain (v : JsValue)
| Instance (o : ToolObject).

(** [!tool]: an object is truthy. *)
Definition falsy (tool : ToolValue) : bool :=
  match tool with
  | Plain v => negb (truthy v)
  | Instance _ => false
  end.

(** [typeof tool.getDeclaration === 'function'], for a [tool] that is
    not falsy. *)
Definition has_getDeclaration (tool : ToolValue) : bool :=
  match tool with
  | Instance {| getDeclaration := Some _ |} => true
  | _ => false
  end.

Definition has_execute (tool : ToolValue) : bool :=
  match tool with
  | Instance {| execute := Some _ |} => true
  | _ => false
  end.

(** [tool.getDeclaration()]. *)
Definition call_getDeclaration (tool : ToolValue) : Completion JsValue :=
  match tool with
  | Plain v =>
      if nullish v
      then Throw (TypeError (CannotReadProperty (js "getDeclaration") v))
      else Throw (TypeError (NotAFunction (js "tool.getDeclaration")))
  | Instance o =>
      match getDeclaration o with
      | Some f => f tt
      | None => Throw (TypeError (NotAFunction (js "tool.getDeclaration")))
      end
  end.

(** [await tool.execute(args)]. *)
Definition call_execute (tool : ToolValue) (args : JsValue) : Settled :=
  match tool with
  | Plain v =>
      if nullish v
      then Rejected (ErrorObject (TypeError (CannotReadProperty (js "execute") v)))
      else Rejected (ErrorObject (TypeError (NotAFunction (js "tool.execute"))))
  | Instance o =>
      match execute o with
      | Some f => f args
      | None => Rejected (ErrorObject (TypeError (NotAFunction (js "tool.execute"))))
      end
  end.

End Tool.
Import Tool (ToolObject, ToolValue, Plain, Instance).

(** *** weather-tool.js *)
Module WeatherTool.

(** What [new Date()] reads of the clock. *)
Record Date : Type := { getFullYear : Z; getMonth : Z; getDate : Z }.

Definition getDeclaration (_ : unit) : Completion JsValue :=
  Normal (JArr [JObj [
    (js "name", JStr (js "get_weather_on_date"));
    (js "description",
      JStr (js "Get the weather forecast for a specific location and date"));
    (js "parameters", JObj [
      (js "type", JStr (js "object"));
      (js "properties", JObj [
        (js "location", JObj [
          (js "type", JStr (js "string"));
          (js "description",
            JStr (js "The location to get weather for (city name)"))]);
        (js "date", JObj [
          (js "type", JStr (js "string"));
          (js "description",
            JStr (js "The date to get weather for (YYYY-MM-DD format). If not provided, the current date is used."))])]);
      (js "required", JArr [JStr (js "location")])])]]).

Definition hashString (str : jsstring) : Z :=
  let loop :=
    fold_left
      (fun hash char =>
         let hash := (shl hash 5 - hash) + char in
         band hash hash)
      str 0 in
  Z.abs loop.

Definition getCurrentDate (today : Date) : jsstring :=
  let year := getFullYear today in
  let month := padStart 2 (js "0") (Number_toString (getMonth today + 1)) in
  let day := padStart 2 (js "0") (Number_toString (getDate today)) in
  Number_toString year ++ js "-" ++ month ++ js "-" ++ day.

Definition weatherConditions : list jsstring :=
  [ js "sunny"; js "partly cloudy"; js "cloudy";
    js "light rain"; js "heavy rain"; js "thunderstorm";
    js "windy"; js "snow"; js "foggy" ].

Record Band : Type := { min : Z; max : Z }.

Definition temperatures : list (jsstring * Band) :=
  [ (js "sunny", {| min := 20; max := 35 |});
    (js "partly cloudy", {| min := 18; max := 30 |});
    (js "cloudy", {| min := 15; max := 25 |});
    (js "light rain", {| min := 12; max := 20 |});
    (js "heavy rain", {| min := 10; max := 18 |});
    (js "thunderstorm", {| min := 15; max := 25 |});
    (js "windy", {| min := 8; max := 15 |});
    (js "snow", {| min := -5; max := 5 |});
    (js "foggy", {| min := 5; max := 15 |}) ].

(** [temperatures[condition]]. *)
Fixpoint band_of (condition : jsstring) (table : list (jsstring * Band))
  : option Band :=
  match table with
  | [] => None
  | (k, b) :: rest => if str_eqb condition k then Some b else band_of condition rest
  end.

(** The degree sign as the source file spells it. *)
Definition degree_C : jsstring := [194; 176; 67].

(** [async execute(args)], at a moment when the clock reads [today].
    The [catch] clause logs and rethrows, so it changes no outcome. *)
Definition execute (today : Date) (args : JsValue) : Completion JsValue :=
  try_catch
    (if nullish args
     then Throw (TypeError (CannotDestructure (js "location") (js "args") args))
     else
       let location := get_prop (js "location") args in
       let date := get_prop (js "date") args in
       let forecastDate := or_else date (JStr (getCurrentDate today)) in
       location_s <- ToString location ;;
       forecastDate_s <- ToString forecastDate ;;
       let seed := hashString (location_s ++ forecastDate_s) in
       match index weatherConditions
               (rem seed (Z.of_nat (length weatherConditions))) with
       | None => Throw (TypeError (CannotReadProperty (js "min") JUndefined))
       | Some condition =>
           match band_of condition temperatures with
           | None => Throw (TypeError (CannotReadProperty (js "min") JUndefined))
           | Some temp =>
               let currentTemp := min temp + rem seed (max temp - min temp) in
               Normal (JObj [
                 (js "location", location);
                 (js "date", forecastDate);
                 (js "condition", JStr condition);
                 (js "temperature", JNum (Math_round currentTemp));
                 (js "humidity", JNum (40 + rem seed 40));
                 (js "windSpeed", JNum (5 + rem seed 25));
                 (js "forecast",
                   JStr (js "The weather in " ++ location_s ++ js " on "
                           ++ forecastDate_s ++ js " will be " ++ condition
                           ++ js " with a temperature of "
                           ++ Number_toString (Math_round currentTemp)
                           ++ degree_C))])
           end
       end)
    (fun error => Throw error).

(** [new WeatherTool()], used while the clock reads [today]. *)
Definition instance (today : Date) : ToolValue :=
  Instance {| Tool.getDeclaration := Some getDeclaration;
              Tool.execute := Some (fun args => Tool.settle (execute today args)) |}.

End WeatherTool.

(** *** email-tool.js *)
Module EmailTool.

(** The collaborators of the mail tool: [CONFIG.EMAIL] of config/config.js,
    the two environment variables, and what the nodemailer transport
    created with given options answers to [sendMail(mailOptions)]. *)
Record Env : Type := {
  CONFIG_EMAIL : JsValue;
  EMAIL_USER : JsValue;
  EMAIL_PASSWORD : JsValue;
  sendMail : JsValue -> JsValue -> Completion JsValue
}.

Definition getDeclaration (_ : unit) : Completion JsValue :=
  Normal (JObj [
    (js "name", JStr (js "sendEmail"));
    (js "description", JStr (js "Sends an email to a specified recipient."));
    (js "parameters", JObj [
      (js "type", JStr (js "object"));
      (js "properties", JObj [
        (js "to", JObj [
          (js "type", JStr (js "string"));
          (js "description", JStr (js "The email address of the recipient."))]);
        (js "subject", JObj [
          (js "type", JStr (js "string"));
          (js "description", JStr (js "The subject of the email."))]);
        (js "body", JObj [
          (js "type", JStr (js "string"));
          (js "description", JStr (js "The body content of the email."))])]);
      (js "required",
        JArr [JStr (js "to"); JStr (js "subject"); JStr (js "body")])])]).

(** [CONFIG.EMAIL.k]. *)
Definition config_email (env : Env) (k : jsstring) : Completion JsValue :=
  if nullish (CONFIG_EMAIL env)
  then Throw (TypeError (CannotReadProperty k (CONFIG_EMAIL env)))
  else Normal (get_prop k (CONFIG_EMAIL env)).

Definition execute (env : Env) (args : JsValue) : Completion JsValue :=
  if nullish args
  then Throw (TypeError (CannotDestructure (js "to") (js "args") args))
  else
    let to := get_prop (js "to") args in
    let subject := get_prop (js "subject") args in
    let body := get_prop (js "body") args in
    if negb (truthy to) || negb (truthy subject) || negb (truthy body)
    then Throw (Error (js "Missing required fields: to, subject, or body."))
    else
      config_user <- config_email env (js "USER") ;;
      let emailUser := or_else config_user (EMAIL_USER env) in
      config_password <- config_email env (js "PASSWORD") ;;
      let emailPassword := or_else config_password (EMAIL_PASSWORD env) in
      if negb (truthy emailUser) || negb (truthy emailPassword)
      then Throw (Error (js "Email credentials are not configured. Please set EMAIL_USER and EMAIL_PASSWORD in CONFIG or environment variables."))
      else
        let transporter :=
          sendMail env (JObj [
            (js "service", JStr (js "gmail"));
            (js "auth", JObj [(js "user", emailUser); (js "pass", emailPassword)])]) in
        let mailOptions :=
          JObj [ (js "from", emailUser); (js "to", to);
                 (js "subject", subject); (js "text", body) ] in
        try_catch
          (_ <- transporter mailOptions ;;
           Normal (JStr (js "Email sent successfully.")))
          (fun error =>
             Throw (Error (js "Failed to send email: " ++ message error))).

(** [new EmailTool()] in the environment [env]. *)
Definition instance (env : Env) : ToolValue :=
  Instance {| Tool.getDeclaration := Some getDeclaration;
              Tool.execute := Some (fun args => Tool.settle (execute env args)) |}.

End EmailTool.

(* ================================================================== *)
(** ** config/config.example.js *)

Module Config.

(** The exported [CONFIG] object. *)
Definition CONFIG : JsValue :=
  JObj [
    (js "API", JObj [
      (js "KEY", JStr (js "Gemini API"));
      (js "BASE_URL", JStr (js "wss://generativelanguage.googleapis.com/ws"));
      (js "VERSION", JStr (js "v1alpha"));
      (js "MODEL_NAME", JStr (js "models/gemini-2.0-flash-exp"))]);
    (js "SYSTEM_INSTRUCTION", JObj [
      (js "TEXT", JStr (js "You are Daisy a very intelligent and knows all ICD codes as medical assistant. You can see and hear, and respond with voice and text. If you are asked about creating medical scribe by Miss Epp-pee and create bsse from her dictations, you must listen carefully and generate the documents or scribe in format suited for her needs in a  production ready format, If she wants the document to be send on her email, you can use the tools to send email to her using proper format, for things you do not know, you can use the search to google tools, never reveal that you are an AI, stay on your persona as the cousin of Ms Epp-pee and that you are from Batangas Phillippines as well. Always speak in an emphatic lovely tone and respect Ms Epp-pee for making you as her assistant."))]);
    (js "VOICE", JObj [(js "NAME", JStr (js "Aoede"))]);
    (js "AUDIO", JObj [
      (js "INPUT_SAMPLE_RATE", JNum 16000);
      (js "OUTPUT_SAMPLE_RATE", JNum 24000);
      (js "BUFFER_SIZE", JNum 7680);
      (js "CHANNELS", JNum 1)])].

(** [CONFIG.EMAIL], as email-tool.js reads it from this object. *)
Definition EMAIL : JsValue := get_prop (js "EMAIL") CONFIG.

End Config.

(* ================================================================== *)
(** ** tool-manager.js *)

Module ToolManager.

(** The JavaScript [Map] from names to tools, in insertion order. *)
Definition ToolMap : Type := list (jsstring * ToolValue).

Fixpoint Map_get (m : ToolMap) (k : jsstring) : option ToolValue :=
  match m with
  | [] => None
  | (k', v) :: rest => if str_eqb k k' then Some v else Map_get rest k
  end.

Definition Map_has (m : ToolMap) (k : jsstring) : bool :=
  match Map_get m k with
  | Some _ => true
  | None => false
  end.

(** [m.set(k, v)]: an existing key keeps its place, a new one goes last. *)
Fixpoint Map_set (m : ToolMap) (k : jsstring) (v : ToolValue) : ToolMap :=
  match m with
  | [] => [(k, v)]
  | (k', v') :: rest =>
      if str_eqb k k' then (k', v) :: rest else (k', v') :: Map_set rest k v
  end.

(** [m.forEach(callback)], the callback acting on a store of type [S]. *)
Fixpoint Map_forEach {S : Type} (m : ToolMap)
  (callback : ToolValue -> jsstring -> S -> Completion S) (s : S)
  : Completion S :=
  match m with
  | [] => Normal s
  | (k, v) :: rest => s' <- callback v k s ;; Map_forEach rest callback s'
  end.

(** The manager object: [this]. *)
Record This : Type := { tools : ToolMap }.

(** A method: it may throw, and it leaves [this] in some state either way. *)
Definition Method (A : Type) : Type := This -> Completion A * This.

Definition ret {A} (a : A) : Method A := fun this => (Normal a, this).

Definition throw {A} (e : JsError) : Method A := fun this => (Throw e, this).

Definition mbind {A B} (c : Method A) (k : A -> Method B) : Method B :=
  fun this =>
    match c this with
    | (Normal a, this') => k a this'
    | (Throw e, this') => (Throw e, this')
    end.

Definition this_tools : Method ToolMap := fun this => (Normal (tools this), this).

Definition set_tools (m : ToolMap) : Method unit :=
  fun _ => (Normal tt, {| tools := m |}).

(** A computation that does not touch [this]. *)
Definition lift {A} (c : Completion A) : Method A := fun this => (c, this).

Notation "x <<- c ;; k" := (mbind c (fun x => k))
  (at level 61, c at next level, right associativity).
Notation "c ;;; k" := (mbind c (fun _ => k))
  (at level 61, right associativity).

Definition already_registered (name : jsstring) : JsError :=
  ApplicationError
    (js "Tool " ++ dquote ++ name ++ dquote ++ js " is already registered.")
    INVALID_STATE.

Definition invalid_tool_instance (name : jsstring) : JsError :=
  ApplicationError
    (js "Invalid tool instance for " ++ dquote ++ name ++ dquote
       ++ js ". Tool must have a " ++ dquote ++ js "getDeclaration" ++ dquote
       ++ js " method.")
    INVALID_PARAMETER.

Definition unknown_tool (name : jsstring) : JsError :=
  ApplicationError
    (js "Unknown tool: " ++ dquote ++ name ++ dquote ++ js ".")
    INVALID_PARAMETER.

Definition registerTool (name : jsstring) (toolInstance : ToolValue)
  : Method unit :=
  m <<- this_tools ;;
  if Map_has m name
  then throw (already_registered name)
  else
    if Tool.falsy toolInstance || negb (Tool.has_getDeclaration toolInstance)
    then throw (invalid_tool_instance name)
    else set_tools (Map_set m name toolInstance).

(** What the manager is built in: [new GoogleSearchTool()] of
    google-search.js, the clock the weather tool reads and the
    collaborators of the mail tool. *)
Record World : Type := {
  googleSearch : ToolValue;
  today : WeatherTool.Date;
  mail : EmailTool.Env
}.

Definition registerDefaultTools (w : World) : Method unit :=
  registerTool (js "googleSearch") (googleSearch w) ;;;
  registerTool (js "weather") (WeatherTool.instance (today w)) ;;;
  registerTool (js "email") (EmailTool.instance (mail w)).

(** [new ToolManager()]. *)
Definition constructor (w : World) : Completion unit * This :=
  registerDefaultTools w {| tools := [] |}.

(** The callback of [getToolDeclarations]; [declarations] is the array
    it pushes to. *)
Definition collect (tool : ToolValue) (name : jsstring)
  (declarations : list JsValue) : Completion (list JsValue) :=
  try_catch
    (declaration <- Tool.call_getDeclaration tool ;;
     if truthy declaration
     then Normal (declarations
                    ++ [JObj [(js "name", JStr name);
                              (js "declaration", declaration)]])
     else Normal declarations)
    (fun error => Normal declarations).

Definition getToolDeclarations : Method JsValue :=
  m <<- this_tools ;;
  declarations <<- lift (Map_forEach m collect []) ;;
  ret (JArr declarations).

Record FunctionCall : Type := {
  name : jsstring;
  args : JsValue;
  id : jsstring
}.

(** Lines 225-232 of [handleToolCall]: the tool a name stands for
    ([undefined] is [None]). *)
Definition findTool (m : ToolMap) (name : jsstring) : option ToolValue :=
  if str_eqb name (js "get_weather_on_date") then Map_get m (js "weather")
  else if str_eqb name (js "sendEmail") then Map_get m (js "email")
  else Map_get m name.

Definition functionResponses (response : JsValue) (id : jsstring) : JsValue :=
  JObj [(js "functionResponses",
         JArr [JObj [(js "response", response); (js "id", JStr id)]])].

Definition handleToolCall (functionCall : FunctionCall) : Method JsValue :=
  let name := name functionCall in
  let args := args functionCall in
  let id := id functionCall in
  m <<- this_tools ;;
  match findTool m name with
  | None => throw (unknown_tool name)
  | Some tool =>
      if Tool.falsy tool
      then throw (unknown_tool name)
      else
        lift (Tool.try_await (Tool.call_execute tool args)
                (fun result =>
                   Normal (functionResponses (JObj [(js "output", result)]) id))
                (fun error =>
                   error_message <- Tool.read_message error ;;
                   Normal (functionResponses
                             (JObj [(js "error", error_message)]) id)))
  end.

(** The promise that an [async] method hands to its caller. *)
Inductive Promise : Type :=
| Resolved (value : JsValue)
| RejectedWith (error : JsError).

(** Calling an [async] method: the call itself returns normally; what the
    body returns fulfils the promise, what it throws rejects it. *)
Definition async (body : Method JsValue) : Method Promise :=
  fun this =>
    match body this with
    | (Normal value, this') => (Normal (Resolved value), this')
    | (Throw error, this') => (Normal (RejectedWith error), this')
    end.

(** The call [handleToolCall(functionCall)], as its caller sees it;
    [handleToolCall] above is the body, whose outcome settles the
    promise. *)
Definition handleToolCall_call (functionCall : FunctionCall) : Method Promise :=
  async (handleToolCall functionCall).

End ToolManager.

(* ================================================================== *)
(** ** Vocabulary of the statements and sample data *)

(** [date || this.getCurrentDate()] when [date] is a string: the date the
    forecast is made for. *)
Definition forecastDate_of (today : WeatherTool.Date) (date : jsstring)
  : jsstring :=
  if truthy (JStr date) then date else WeatherTool.getCurrentDate today.

(** The entry a tool contributes to the aggregate of declarations. *)
Definition declared (entry : jsstring * ToolValue) : list JsValue :=
  let (name, tool) := entry in
  match Tool.call_getDeclaration tool with
  | Normal declaration =>
      if truthy declaration
      then [JObj [(js "name", JStr name); (js "declaration", declaration)]]
      else []
  | Throw _ => []
  end.

(** What [registerTool] lets into the registry: every stored tool has a
    [getDeclaration] method. *)
Definition registered_ok (m : ToolManager.ToolMap) : Prop :=
  forall entry, In entry m -> Tool.has_getDeclaration (snd entry) = true.

Module Sample.

Definition march_1st : WeatherTool.Date :=
  {| WeatherTool.getFullYear := 2024; WeatherTool.getMonth := 2;
     WeatherTool.getDate := 1 |}.

Definition march_2nd : WeatherTool.Date :=
  {| WeatherTool.getFullYear := 2024; WeatherTool.getMonth := 2;
     WeatherTool.getDate := 2 |}.

Definition manila (date : jsstring) : JsValue :=
  JObj [(js "location", JStr (js "Manila")); (js "date", JStr date)].

(** No credentials configured; the transport would accept any mail. *)
Definition no_credentials : EmailTool.Env :=
  {| EmailTool.CONFIG_EMAIL := JUndefined;
     EmailTool.EMAIL_USER := JUndefined;
     EmailTool.EMAIL_PASSWORD := JUndefined;
     EmailTool.sendMail := fun _ _ => Normal JUndefined |}.

(** A search tool with both methods. *)
Definition search_tool : ToolValue :=
  Instance {| Tool.getDeclaration := Some (fun _ => Normal (JObj [(js "name", JStr (js "googleSearch"))]));
              Tool.execute := Some (fun _ => Tool.Fulfilled (JStr (js "results"))) |}.

(** A tool that describes itself but has no [execute] method. *)
Definition describe_only : ToolValue :=
  Instance {| Tool.getDeclaration := Some (fun _ => Normal (JObj [(js "name", JStr (js "stub"))]));
              Tool.execute := None |}.

(** A tool whose [getDeclaration] throws and whose [execute] throws. *)
Definition broken_tool : ToolValue :=
  Instance {| Tool.getDeclaration := Some (fun _ => Throw (Error (js "no declaration")));
              Tool.execute :=
                Some (fun _ => Tool.Rejected (Tool.ErrorObject (Error (js "boom")))) |}.

(** A tool whose [execute] rejects with no reason, as [Promise.reject()]
    does. *)
Definition rejecting_tool : ToolValue :=
  Instance {| Tool.getDeclaration := Some (fun _ => Normal (JObj [(js "name", JStr (js "flaky"))]));
              Tool.execute := Some (fun _ => Tool.Rejected (Tool.OtherValue JUndefined)) |}.

Definition world : ToolManager.World :=
  {| ToolManager.googleSearch := search_tool;
     ToolManager.today := march_1st;
     ToolManager.mail := no_credentials |}.

(** The manager right after construction in [world]. *)
Definition manager : ToolManager.This :=
  {| ToolManager.tools :=
       [ (js "googleSearch", search_tool);
         (js "weather", WeatherTool.instance march_1st);
         (js "email", EmailTool.instance no_credentials) ] |}.

Definition mail_without_recipient (id : jsstring) : ToolManager.FunctionCall :=
  {| ToolManager.name := js "sendEmail";
     ToolManager.args :=
       JObj [(js "to", JStr []); (js "subject", JStr (js "s"));
             (js "body", JStr (js "b"))];
     ToolManager.id := id |}.

End Sample.

(** The polynomial hash in base 31 over the integers, without wrap-around. *)
Definition poly_hash (str : jsstring) : Z :=
  fold_left (fun h c => 31 * h + c) str 0.

(** A client calling [registerTool] several times in a row, going on after
    a call that threw. *)
Fixpoint registrations (rs : list (jsstring * ToolValue))
  (this : ToolManager.This) : ToolManager.This :=
  match rs with
  | [] => this
  | (name, tool) :: rest =>
      registrations rest (snd (ToolManager.registerTool name tool this))
  end.

(** The same collaborators with other environment variables. *)
Definition with_variables (env : EmailTool.Env) (user password : JsValue)
  : EmailTool.Env :=
  {| EmailTool.CONFIG_EMAIL := EmailTool.CONFIG_EMAIL env;
     EmailTool.EMAIL_USER := user;
     EmailTool.EMAIL_PASSWORD := password;
     EmailTool.sendMail := EmailTool.sendMail env |}.

(** What [handleToolCall] answers for an outcome of [execute]. *)
Definition envelope_of (outcome : Completion JsValue) (id : jsstring)
  : JsValue :=
  match outcome with
  | Normal result =>
      ToolManager.functionResponses (JObj [(js "output", result)]) id
  | Throw error =>
      ToolManager.functionResponses
        (JObj [(js "error", JStr (message error))]) id
  end.

(* ================================================================== *)
(** * Properties *)

(** ** Strings and numbers *)

Example Number_toString_ex :
  Number_toString 0 = js "0" /\ Number_toString (-5) = js "-5"
  /\ Number_toString 2024 = js "2024".
Proof. repeat split; reflexivity. Qed.

Example padStart_ex :
  padStart 2 (js "0") (js "3") = js "03" /\ padStart 2 (js "0") (js "12") = js "12".
Proof. split; reflexivity. Qed.

Example ToString_ex :
  ToString (JArr [JNum 1; JNull; JStr (js "a")]) = Normal (js "1,,a").
Proof. reflexivity. Qed.

Section StringFacts.

Lemma str_eqb_refl (a : jsstring) : str_eqb a a = true.
Proof.
  induction a as [|x a IH]; simpl; [reflexivity|].
  now rewrite Z.eqb_refl, IH.
Qed.

Lemma str_eqb_eq (a b : jsstring) : str_eqb a b = true <-> a = b.
Proof.
  split.
  - revert b; induction a as [|x a IH]; intros [|y b]; simpl;
      try discriminate; [reflexivity|].
    intros H. apply andb_true_iff in H as [Hx Hr].
    apply Z.eqb_eq in Hx. apply IH in Hr. now subst.
  - intros ->. apply str_eqb_refl.
Qed.

Lemma str_eqb_neq (a b : jsstring) : str_eqb a b = false <-> a <> b.
Proof.
  split.
  - intros H E. apply str_eqb_eq in E. congruence.
  - intros H. destruct (str_eqb a b) eqn:E; [|reflexivity].
    apply str_eqb_eq in E. contradiction.
Qed.

Lemma truthy_JStr (s : jsstring) : truthy (JStr s) = true <-> s <> [].
Proof.
  simpl. rewrite negb_true_iff. apply str_eqb_neq.
Qed.

End StringFacts.

Section NumberFacts.

Lemma ToInt32_range (x : Z) : - 2 ^ 31 <= ToInt32 x < 2 ^ 31.
Proof.
  unfold ToInt32.
  pose proof (Z.mod_pos_bound (x + 2 ^ 31) (2 ^ 32) ltac:(lia)). lia.
Qed.

Lemma band_diag (x : Z) : band x x = ToInt32 x.
Proof. unfold band. apply Z.land_diag. Qed.

Lemma rem_range (a b : Z) : 0 <= a -> 0 < b -> 0 <= rem a b < b.
Proof. intros Ha Hb. unfold rem. apply Z.rem_bound_pos; lia. Qed.

End NumberFacts.

(** ** The weather tool *)

Section WeatherFacts.
Import WeatherTool.

(** The running hash stays a signed 32-bit integer. *)
Lemma hash_loop_range (str : jsstring) (h0 : Z) :
  - 2 ^ 31 <= h0 < 2 ^ 31 ->
  - 2 ^ 31 <=
    fold_left (fun hash char =>
                 let hash := (shl hash 5 - hash) + char in band hash hash)
              str h0 < 2 ^ 31.
Proof.
  revert h0. induction str as [|c str IH]; intros h0 Hh0; simpl.
  - exact Hh0.
  - apply IH. rewrite band_diag. apply ToInt32_range.
Qed.

(** The seed is a non-negative integer, at most 2^31. *)
Lemma hashString_range (str : jsstring) : 0 <= hashString str <= 2 ^ 31.
Proof.
  unfold hashString.
  pose proof (hash_loop_range str 0 ltac:(lia)) as H. cbv zeta in *. lia.
Qed.

(** Every index below nine names a condition that has a band, and the
    band is not empty. *)
Lemma condition_of_index (i : Z) :
  0 <= i < 9 ->
  exists condition temp,
    index weatherConditions i = Some condition
    /\ In condition weatherConditions
    /\ band_of condition temperatures = Some temp
    /\ 0 < max temp - min temp.
Proof.
  intros Hi.
  assert (i = 0 \/ i = 1 \/ i = 2 \/ i = 3 \/ i = 4 \/ i = 5 \/ i = 6
          \/ i = 7 \/ i = 8) as Hc by lia.
  repeat (destruct Hc as [-> | Hc]); try subst i;
    (eexists; eexists; split; [reflexivity|];
     split; [simpl; tauto|]; split; [reflexivity|]; vm_compute; reflexivity).
Qed.

Lemma get_prop_object (k : jsstring) (v : JsValue) :
  get_prop k v <> JUndefined -> nullish v = false.
Proof.
  destruct v; simpl; try congruence; reflexivity.
Qed.

End WeatherFacts.

Section WeatherExecute.
Import WeatherTool.

Lemma forecastDate_of_nonempty (today : Date) (date : jsstring) :
  date <> [] -> forecastDate_of today date = date.
Proof.
  intros H. unfold forecastDate_of.
  apply truthy_JStr in H. now rewrite H.
Qed.

(** [execute] on a location string and a date string, computed out. *)
Lemma execute_on_strings (today : Date) (args : JsValue)
      (location date : jsstring) :
  get_prop (js "location") args = JStr location ->
  get_prop (js "date") args = JStr date ->
  let forecastDate := forecastDate_of today date in
  let seed := hashString (location ++ forecastDate) in
  exists condition temp,
    index weatherConditions (rem seed 9) = Some condition
    /\ In condition weatherConditions
    /\ band_of condition temperatures = Some temp
    /\ 0 < max temp - min temp
    /\ execute today args =
       Normal (JObj [
         (js "location", JStr location);
         (js "date", JStr forecastDate);
         (js "condition", JStr condition);
         (js "temperature", JNum (min temp + rem seed (max temp - min temp)));
         (js "humidity", JNum (40 + rem seed 40));
         (js "windSpeed", JNum (5 + rem seed 25));
         (js "forecast",
           JStr (js "The weather in " ++ location ++ js " on "
                   ++ forecastDate ++ js " will be " ++ condition
                   ++ js " with a temperature of "
                   ++ Number_toString
                        (min temp + rem seed (max temp - min temp))
                   ++ degree_C))]).
Proof.
  intros Hl Hd forecastDate seed.
  assert (nullish args = false) as Hargs
    by (apply (get_prop_object (js "location")); rewrite Hl; discriminate).
  pose proof (hashString_range (location ++ forecastDate)) as Hseed.
  fold seed in Hseed.
  destruct (condition_of_index (rem seed 9)) as (condition & temp & Hi & Hin & Hb & Hpos).
  { apply rem_range; lia. }
  exists condition, temp. repeat (split; [assumption|]).
  unfold execute. rewrite Hargs, Hl, Hd.
  assert (or_else (JStr date) (JStr (getCurrentDate today)) = JStr forecastDate)
    as -> by (unfold or_else, forecastDate, forecastDate_of;
              now destruct (truthy (JStr date))).
  cbn [ToString bind try_catch].
  change (Z.of_nat (length weatherConditions)) with 9.
  fold seed. rewrite Hi, Hb. reflexivity.
Qed.

End WeatherExecute.

(** C9. [WeatherTool.execute] never throws on a location string and a date
    string: it returns a forecast whose condition is one of the nine fixed
    conditions, whose temperature lies in that condition's band, whose
    humidity lies in 40..79 and whose wind speed lies in 5..29; the seed is a
    non-negative integer and the band's width, used as a modulus, is
    positive. *)
Theorem C9_weather_execute_total_bounded
        (today : WeatherTool.Date) (args : JsValue) (location date : jsstring) :
  get_prop (js "location") args = JStr location ->
  get_prop (js "date") args = JStr date ->
  exists result condition temp temperature humidity windSpeed,
    WeatherTool.execute today args = Normal result
    /\ 0 <= WeatherTool.hashString (location ++ forecastDate_of today date)
    /\ get_prop (js "condition") result = JStr condition
    /\ In condition WeatherTool.weatherConditions
    /\ WeatherTool.band_of condition WeatherTool.temperatures = Some temp
    /\ 0 < WeatherTool.max temp - WeatherTool.min temp
    /\ get_prop (js "temperature") result = JNum temperature
    /\ WeatherTool.min temp <= temperature <= WeatherTool.max temp
    /\ get_prop (js "humidity") result = JNum humidity
    /\ 40 <= humidity <= 79
    /\ get_prop (js "windSpeed") result = JNum windSpeed
    /\ 5 <= windSpeed <= 29.
Proof.
  intros Hl Hd.
  destruct (execute_on_strings today args location date Hl Hd)
    as (condition & temp & _ & Hin & Hb & Hpos & Hexec).
  set (seed := WeatherTool.hashString (location ++ forecastDate_of today date)) in *.
  pose proof (hashString_range (location ++ forecastDate_of today date)) as Hseed.
  fold seed in Hseed.
  pose proof (rem_range seed _ (proj1 Hseed) Hpos) as Ht.
  pose proof (rem_range seed 40 (proj1 Hseed) ltac:(lia)) as Hh.
  pose proof (rem_range seed 25 (proj1 Hseed) ltac:(lia)) as Hw.
  eexists; exists condition, temp; do 3 eexists.
  split; [exact Hexec|].
  split; [lia|].
  split; [reflexivity|].
  split; [exact Hin|].
  split; [exact Hb|].
  split; [exact Hpos|].
  split; [reflexivity|].
  split; [lia|].
  split; [reflexivity|].
  split; [lia|].
  split; [reflexivity|lia].
Qed.

(** An instance of C9: Manila on 2024-03-01. *)
Lemma C9_weather_execute_total_bounded_witness :
  exists result condition temp temperature humidity windSpeed,
    WeatherTool.execute Sample.march_1st (Sample.manila (js "2024-03-01"))
    = Normal result
    /\ 0 <= WeatherTool.hashString
              (js "Manila" ++ forecastDate_of Sample.march_1st (js "2024-03-01"))
    /\ get_prop (js "condition") result = JStr condition
    /\ In condition WeatherTool.weatherConditions
    /\ WeatherTool.band_of condition WeatherTool.temperatures = Some temp
    /\ 0 < WeatherTool.max temp - WeatherTool.min temp
    /\ get_prop (js "temperature") result = JNum temperature
    /\ WeatherTool.min temp <= temperature <= WeatherTool.max temp
    /\ get_prop (js "humidity") result = JNum humidity
    /\ 40 <= humidity <= 79
    /\ get_prop (js "windSpeed") result = JNum windSpeed
    /\ 5 <= windSpeed <= 29.
Proof.
  apply (C9_weather_execute_total_bounded
           Sample.march_1st (Sample.manila (js "2024-03-01"))
           (js "Manila") (js "2024-03-01"));
    reflexivity.
Defined.

(** C7 does not hold for the empty date string, whose forecast follows
    the clock: on two
    different days the same arguments give two different conditions, so the
    forecast is not a function of the location and date strings alone. *)
Lemma C7_empty_date_follows_clock :
  ~ (forall (today1 today2 : WeatherTool.Date) (args : JsValue)
            (location date : jsstring) (r1 r2 : JsValue),
        get_prop (js "location") args = JStr location ->
        get_prop (js "date") args = JStr date ->
        WeatherTool.execute today1 args = Normal r1 ->
        WeatherTool.execute today2 args = Normal r2 ->
        get_prop (js "condition") r1 = get_prop (js "condition") r2
        /\ get_prop (js "temperature") r1 = get_prop (js "temperature") r2).
Proof.
  intros H.
  destruct (WeatherTool.execute Sample.march_1st (Sample.manila [])) as [r1|] eqn:E1;
    [|vm_compute in E1; discriminate E1].
  destruct (WeatherTool.execute Sample.march_2nd (Sample.manila [])) as [r2|] eqn:E2;
    [|vm_compute in E2; discriminate E2].
  destruct (H Sample.march_1st Sample.march_2nd (Sample.manila [])
              (js "Manila") [] r1 r2 eq_refl eq_refl E1 E2) as [Hc _].
  vm_compute in E1, E2.
  injection E1 as <-. injection E2 as <-.
  vm_compute in Hc. discriminate Hc.
Qed.

(** C7, for a date that is not empty. For a location string and a non-empty date string the
    forecast does not depend on the clock: two invocations with the same
    arguments return the same result, whose condition and temperature are
    derived from the seed [hashString (location ++ date)]. *)
Theorem C7_forecast_deterministic
        (today1 today2 : WeatherTool.Date) (args : JsValue)
        (location date : jsstring) :
  get_prop (js "location") args = JStr location ->
  get_prop (js "date") args = JStr date ->
  date <> [] ->
  exists result condition temp,
    WeatherTool.execute today1 args = Normal result
    /\ WeatherTool.execute today2 args = Normal result
    /\ index WeatherTool.weatherConditions
             (rem (WeatherTool.hashString (location ++ date)) 9)
       = Some condition
    /\ WeatherTool.band_of condition WeatherTool.temperatures = Some temp
    /\ get_prop (js "condition") result = JStr condition
    /\ get_prop (js "temperature") result =
       JNum (WeatherTool.min temp
             + rem (WeatherTool.hashString (location ++ date))
                   (WeatherTool.max temp - WeatherTool.min temp)).
Proof.
  intros Hl Hd Hne.
  destruct (execute_on_strings today1 args location date Hl Hd)
    as (c1 & t1 & Hi1 & _ & Hb1 & _ & He1).
  destruct (execute_on_strings today2 args location date Hl Hd)
    as (c2 & t2 & Hi2 & _ & Hb2 & _ & He2).
  rewrite (forecastDate_of_nonempty today1 _ Hne) in Hi1, He1.
  rewrite (forecastDate_of_nonempty today2 _ Hne) in Hi2, He2.
  assert (c2 = c1) as -> by congruence.
  assert (t2 = t1) as -> by congruence.
  eexists; exists c1, t1.
  split; [exact He1|].
  split; [exact He2|].
  split; [exact Hi1|].
  split; [exact Hb1|].
  split; reflexivity.
Qed.

(** An instance of C7: Manila on 2024-03-01, asked on two different days. *)
Lemma C7_forecast_deterministic_witness :
  exists result condition temp,
    WeatherTool.execute Sample.march_1st (Sample.manila (js "2024-03-01"))
    = Normal result
    /\ WeatherTool.execute Sample.march_2nd (Sample.manila (js "2024-03-01"))
       = Normal result
    /\ index WeatherTool.weatherConditions
             (rem (WeatherTool.hashString (js "Manila" ++ js "2024-03-01")) 9)
       = Some condition
    /\ WeatherTool.band_of condition WeatherTool.temperatures = Some temp
    /\ get_prop (js "condition") result = JStr condition
    /\ get_prop (js "temperature") result =
       JNum (WeatherTool.min temp
             + rem (WeatherTool.hashString (js "Manila" ++ js "2024-03-01"))
                   (WeatherTool.max temp - WeatherTool.min temp)).
Proof.
  apply (C7_forecast_deterministic
           Sample.march_1st Sample.march_2nd (Sample.manila (js "2024-03-01"))
           (js "Manila") (js "2024-03-01"));
    [reflexivity | reflexivity | vm_compute; discriminate].
Defined.

(** ** The registry *)

Section MapFacts.
Import ToolManager.

Lemma Map_has_get (m : ToolMap) (k : jsstring) :
  Map_has m k = true <-> exists v, Map_get m k = Some v.
Proof.
  unfold Map_has. destruct (Map_get m k) as [v|].
  - split; [eauto | reflexivity].
  - split; [discriminate | intros [v H]; discriminate H].
Qed.

Lemma Map_has_false (m : ToolMap) (k : jsstring) :
  Map_has m k = false <-> Map_get m k = None.
Proof.
  unfold Map_has. destruct (Map_get m k); split; congruence.
Qed.

Lemma Map_get_set_same (m : ToolMap) (k : jsstring) (v : ToolValue) :
  Map_get (Map_set m k v) k = Some v.
Proof.
  induction m as [|[k' v'] m IH]; simpl.
  - now rewrite str_eqb_refl.
  - destruct (str_eqb k k') eqn:E; simpl; rewrite E; [reflexivity | exact IH].
Qed.

Lemma Map_get_set_other (m : ToolMap) (k k' : jsstring) (v : ToolValue) :
  k <> k' -> Map_get (Map_set m k v) k' = Map_get m k'.
Proof.
  intros Hne. induction m as [|[k0 v0] m IH]; simpl.
  - assert (str_eqb k' k = false) as -> by (apply str_eqb_neq; congruence).
    reflexivity.
  - destruct (str_eqb k k0) eqn:E; simpl.
    + apply str_eqb_eq in E. subst k0.
      assert (str_eqb k' k = false) as -> by (apply str_eqb_neq; congruence).
      reflexivity.
    + destruct (str_eqb k' k0); [reflexivity | exact IH].
Qed.

(** A key that is not yet there is appended: the earlier entries stay. *)
Lemma Map_set_fresh (m : ToolMap) (k : jsstring) (v : ToolValue) :
  Map_get m k = None -> Map_set m k v = m ++ [(k, v)].
Proof.
  induction m as [|[k' v'] m IH]; simpl; [reflexivity|].
  destruct (str_eqb k k'); [discriminate|].
  intros H. now rewrite IH.
Qed.

End MapFacts.

Section RegisterFacts.
Import ToolManager.

Lemma registerTool_unfold (name : jsstring) (toolInstance : ToolValue)
      (this : This) :
  registerTool name toolInstance this =
  if Map_has (tools this) name
  then (Throw (already_registered name), this)
  else if Tool.falsy toolInstance || negb (Tool.has_getDeclaration toolInstance)
       then (Throw (invalid_tool_instance name), this)
       else (Normal tt, {| tools := Map_set (tools this) name toolInstance |}).
Proof.
  unfold registerTool, mbind, this_tools, throw, set_tools.
  destruct (Map_has (tools this) name); [reflexivity|].
  destruct (Tool.falsy toolInstance || negb (Tool.has_getDeclaration toolInstance));
    reflexivity.
Qed.

(** A tool with a [getDeclaration] method is accepted under a new name,
    whether or not it has an [execute] method. *)
Lemma registerTool_accepts (name : jsstring) (toolInstance : ToolValue)
      (this : This) :
  Map_has (tools this) name = false ->
  Tool.has_getDeclaration toolInstance = true ->
  registerTool name toolInstance this =
  (Normal tt, {| tools := tools this ++ [(name, toolInstance)] |}).
Proof.
  intros Hnew Hdecl. rewrite registerTool_unfold, Hnew, Hdecl.
  assert (Tool.falsy toolInstance = false) as ->
    by (destruct toolInstance; [discriminate Hdecl | reflexivity]).
  simpl. rewrite Map_set_fresh; [reflexivity|].
  now apply Map_has_false.
Qed.

(** Registering twice: the first call succeeds, the second one is refused
    and the first tool stays. *)
Lemma registerTool_twice (name : jsstring) (first second : ToolValue)
      (this this1 : This) :
  registerTool name first this = (Normal tt, this1) ->
  registerTool name second this1 = (Throw (already_registered name), this1)
  /\ Map_get (tools this1) name = Some first.
Proof.
  rewrite registerTool_unfold.
  destruct (Map_has (tools this) name); [discriminate|].
  destruct (Tool.falsy first || negb (Tool.has_getDeclaration first));
    [discriminate|].
  intros H. injection H as <-.
  rewrite registerTool_unfold. unfold Map_has. simpl.
  rewrite Map_get_set_same. split; reflexivity.
Qed.

End RegisterFacts.

(** The registry only grows, and holds nothing but tools that passed the
    check of [registerTool]. *)
Section RegistryInvariant.
Import ToolManager.

Lemma Map_get_In (m : ToolMap) (k : jsstring) (v : ToolValue) :
  Map_get m k = Some v -> In (k, v) m.
Proof.
  induction m as [|[k' v'] m IH]; simpl; [discriminate|].
  destruct (str_eqb k k') eqn:E.
  - apply str_eqb_eq in E. intros H. injection H as ->. subst. now left.
  - intros H. right. now apply IH.
Qed.

Lemma registered_ok_usable (m : ToolMap) (k : jsstring) (tool : ToolValue) :
  registered_ok m -> Map_get m k = Some tool -> Tool.falsy tool = false.
Proof.
  intros Hok Hget. specialize (Hok (k, tool) (Map_get_In _ _ _ Hget)).
  destruct tool; [discriminate Hok | reflexivity].
Qed.

Lemma registerTool_outcome (name : jsstring) (toolInstance : ToolValue)
      (this : This) :
  (exists e, registerTool name toolInstance this = (Throw e, this))
  \/ (Map_has (tools this) name = false
      /\ Tool.has_getDeclaration toolInstance = true
      /\ registerTool name toolInstance this
         = (Normal tt, {| tools := tools this ++ [(name, toolInstance)] |})).
Proof.
  destruct (Map_has (tools this) name) eqn:Hhas.
  - left. rewrite registerTool_unfold, Hhas. eauto.
  - destruct (Tool.has_getDeclaration toolInstance) eqn:Hdecl.
    + right. repeat split. now apply registerTool_accepts.
    + left. rewrite registerTool_unfold, Hhas, Hdecl, orb_true_r. eauto.
Qed.

Lemma registerTool_preserves_ok (name : jsstring) (toolInstance : ToolValue)
      (this : This) :
  registered_ok (tools this) ->
  registered_ok (tools (snd (registerTool name toolInstance this))).
Proof.
  intros Hok.
  destruct (registerTool_outcome name toolInstance this)
    as [[e ->] | (_ & Hdecl & ->)]; [exact Hok|].
  intros entry Hin. simpl in Hin. apply in_app_or in Hin as [Hin | [<- | []]];
    [now apply Hok | exact Hdecl].
Qed.

Lemma registerTool_keeps_entries (name k : jsstring)
      (toolInstance v : ToolValue) (this : This) :
  Map_get (tools this) k = Some v ->
  Map_get (tools (snd (registerTool name toolInstance this))) k = Some v.
Proof.
  intros Hget. rewrite registerTool_unfold.
  destruct (Map_has (tools this) name) eqn:Hhas; [exact Hget|].
  destruct (Tool.falsy toolInstance || negb (Tool.has_getDeclaration toolInstance));
    [exact Hget|].
  simpl. rewrite Map_get_set_other; [exact Hget|].
  intros <-. apply Map_has_false in Hhas. congruence.
Qed.

(** Whatever the search tool is, the manager that construction leaves
    holds only tools that passed the check. *)
Lemma constructor_registered_ok (w : World) :
  registered_ok (tools (snd (constructor w))).
Proof.
  unfold constructor, registerDefaultTools, mbind.
  assert (registered_ok (tools {| tools := [] |})) as H0 by (intros entry []).
  pose proof (registerTool_preserves_ok (js "googleSearch") (googleSearch w) _ H0)
    as H1.
  destruct (registerTool (js "googleSearch") (googleSearch w) {| tools := [] |})
    as [[[]|e] this1]; [|exact H1].
  simpl in H1.
  pose proof (registerTool_preserves_ok (js "weather")
                (WeatherTool.instance (today w)) _ H1) as H2.
  destruct (registerTool (js "weather") (WeatherTool.instance (today w)) this1)
    as [[[]|e] this2]; [|exact H2].
  simpl in H2.
  apply (registerTool_preserves_ok (js "email")
           (EmailTool.instance (mail w)) _ H2).
Qed.

End RegistryInvariant.

(** C3. When a name is already in the registry, [registerTool] under that
    name throws the already-registered error and leaves the manager as it
    was: the entry under the name is still the first tool, and nothing is
    added or removed. *)
Theorem C3_register_existing_name_rejected
        (this : ToolManager.This) (name : jsstring) (first second : ToolValue) :
  ToolManager.Map_get (ToolManager.tools this) name = Some first ->
  ToolManager.registerTool name second this
  = (Throw (ToolManager.already_registered name), this)
  /\ ToolManager.Map_get
       (ToolManager.tools (snd (ToolManager.registerTool name second this))) name
     = Some first.
Proof.
  intros Hfirst.
  assert (ToolManager.Map_has (ToolManager.tools this) name = true) as Hhas
    by (apply Map_has_get; eauto).
  rewrite registerTool_unfold, Hhas. simpl. split; [reflexivity | exact Hfirst].
Qed.

(** An instance of C3: the mail tool offered under the name of the weather
    tool. *)
Lemma C3_register_existing_name_rejected_witness :
  ToolManager.registerTool (js "weather")
    (EmailTool.instance Sample.no_credentials) Sample.manager
  = (Throw (ToolManager.already_registered (js "weather")), Sample.manager)
  /\ ToolManager.Map_get
       (ToolManager.tools
          (snd (ToolManager.registerTool (js "weather")
                  (EmailTool.instance Sample.no_credentials) Sample.manager)))
       (js "weather")
     = Some (WeatherTool.instance Sample.march_1st).
Proof.
  apply (C3_register_existing_name_rejected Sample.manager (js "weather")
           (WeatherTool.instance Sample.march_1st)
           (EmailTool.instance Sample.no_credentials)).
  reflexivity.
Defined.

(** C4 does not hold for a tool that lacks [execute] only: it is
    registered, the check of [registerTool] not looking at [execute]. *)
Lemma C4_execute_is_not_checked :
  ~ (forall (this : ToolManager.This) (name : jsstring) (plugin : ToolValue),
        Tool.falsy plugin = true
        \/ Tool.has_getDeclaration plugin = false
        \/ Tool.has_execute plugin = false ->
        ToolManager.registerTool name plugin this
        = (Throw (ToolManager.invalid_tool_instance name), this)).
Proof.
  intros H.
  specialize (H {| ToolManager.tools := [] |} (js "stub") Sample.describe_only
                (or_intror (or_intror eq_refl))).
  vm_compute in H. discriminate H.
Qed.

(** C4, for the [getDeclaration] operation. [registerTool] throws and leaves the manager as it was
    whenever the tool is falsy or has no [getDeclaration] method: the
    invalid-instance error when the name is new, the already-registered
    error (checked first) when the name is taken. *)
Theorem C4_register_invalid_tool_rejected
        (this : ToolManager.This) (name : jsstring) (plugin : ToolValue) :
  Tool.falsy plugin = true \/ Tool.has_getDeclaration plugin = false ->
  ToolManager.registerTool name plugin this
  = (Throw (if ToolManager.Map_has (ToolManager.tools this) name
            then ToolManager.already_registered name
            else ToolManager.invalid_tool_instance name),
     this).
Proof.
  intros Hbad. rewrite registerTool_unfold.
  destruct (ToolManager.Map_has (ToolManager.tools this) name); [reflexivity|].
  assert (Tool.falsy plugin || negb (Tool.has_getDeclaration plugin) = true) as ->.
  { destruct Hbad as [-> | ->]; [reflexivity | apply orb_true_r]. }
  reflexivity.
Qed.

(** An instance of C4: [null] offered as a tool under a new name. *)
Lemma C4_register_invalid_tool_rejected_witness :
  ToolManager.registerTool (js "calendar") (Plain JNull) Sample.manager
  = (Throw (if ToolManager.Map_has (ToolManager.tools Sample.manager) (js "calendar")
            then ToolManager.already_registered (js "calendar")
            else ToolManager.invalid_tool_instance (js "calendar")),
     Sample.manager).
Proof.
  apply (C4_register_invalid_tool_rejected Sample.manager (js "calendar") (Plain JNull)).
  left. reflexivity.
Defined.

(** ** Aggregating the declarations *)

Section DeclarationFacts.
Import ToolManager.

Lemma collect_declared (tool : ToolValue) (name : jsstring)
      (declarations : list JsValue) :
  collect tool name declarations = Normal (declarations ++ declared (name, tool)).
Proof.
  unfold collect, declared.
  destruct (Tool.call_getDeclaration tool) as [d|e]; simpl.
  - destruct (truthy d); simpl; [reflexivity | now rewrite app_nil_r].
  - now rewrite app_nil_r.
Qed.

Lemma Map_forEach_collect (m : ToolMap) (declarations : list JsValue) :
  Map_forEach m collect declarations
  = Normal (declarations ++ flat_map declared m).
Proof.
  revert declarations. induction m as [|[k v] m IH]; intros declarations; simpl.
  - now rewrite app_nil_r.
  - rewrite collect_declared. simpl. rewrite IH. now rewrite <- app_assoc.
Qed.

(** The aggregation never throws, whatever the tools do. *)
Lemma getToolDeclarations_total (this : This) :
  getToolDeclarations this = (Normal (JArr (flat_map declared (tools this))), this).
Proof.
  unfold getToolDeclarations, mbind, this_tools, lift, ret.
  now rewrite Map_forEach_collect.
Qed.

(** Tools that describe themselves contribute one entry each, in order. *)
Lemma declared_all (m : ToolMap) :
  (forall entry, In entry m ->
     exists d, Tool.call_getDeclaration (snd entry) = Normal d /\ truthy d = true) ->
  length (flat_map declared m) = length m
  /\ map (get_prop (js "name")) (flat_map declared m)
     = map (fun entry => JStr (fst entry)) m.
Proof.
  induction m as [|[k v] m IH]; intros Hall; simpl; [split; reflexivity|].
  destruct (Hall (k, v) (or_introl eq_refl)) as (d & Hd & Ht). simpl in Hd.
  destruct IH as [IHl IHn]; [intros entry Hin; apply Hall; now right|].
  rewrite Hd, Ht. simpl. split; [now rewrite IHl | now rewrite IHn].
Qed.

End DeclarationFacts.

(** C5. [getToolDeclarations] does not throw.  In a registry of N tools of
    which one throws in [getDeclaration] or returns a falsy declaration,
    while the others return a declaration, it returns N-1 entries: those of
    the other tools, in registry order. *)
Theorem C5_declarations_skip_failing_tool
        (this : ToolManager.This) (before after : ToolManager.ToolMap)
        (name : jsstring) (failing : ToolValue) :
  ToolManager.tools this = before ++ (name, failing) :: after ->
  (forall entry, In entry (before ++ after) ->
     exists d, Tool.call_getDeclaration (snd entry) = Normal d /\ truthy d = true) ->
  ((exists e, Tool.call_getDeclaration failing = Throw e)
   \/ (exists d, Tool.call_getDeclaration failing = Normal d /\ truthy d = false)) ->
  exists declarations,
    ToolManager.getToolDeclarations this = (Normal (JArr declarations), this)
    /\ length declarations = (length (ToolManager.tools this) - 1)%nat
    /\ map (get_prop (js "name")) declarations
       = map (fun entry => JStr (fst entry)) (before ++ after).
Proof.
  intros Htools Hgood Hbad.
  exists (flat_map declared (ToolManager.tools this)).
  split; [apply getToolDeclarations_total|].
  assert (declared (name, failing) = []) as Hskip.
  { unfold declared.
    destruct Hbad as [[e ->] | (d & -> & ->)]; reflexivity. }
  assert (flat_map declared (ToolManager.tools this)
          = flat_map declared (before ++ after)) as ->.
  { rewrite Htools, !flat_map_app. cbn [flat_map]. now rewrite Hskip. }
  destruct (declared_all (before ++ after) Hgood) as [Hlen Hnames].
  split; [|exact Hnames].
  rewrite Hlen, Htools, !length_app. simpl. lia.
Qed.

(** An instance of C5: a broken tool between the search tool and the
    weather tool. *)
Lemma C5_declarations_skip_failing_tool_witness :
  exists declarations,
    ToolManager.getToolDeclarations
      {| ToolManager.tools :=
           [(js "googleSearch", Sample.search_tool)]
             ++ (js "broken", Sample.broken_tool)
             :: [(js "weather", WeatherTool.instance Sample.march_1st)] |}
    = (Normal (JArr declarations),
       {| ToolManager.tools :=
            [(js "googleSearch", Sample.search_tool)]
              ++ (js "broken", Sample.broken_tool)
              :: [(js "weather", WeatherTool.instance Sample.march_1st)] |})
    /\ length declarations = (3 - 1)%nat
    /\ map (get_prop (js "name")) declarations
       = [JStr (js "googleSearch"); JStr (js "weather")].
Proof.
  apply (C5_declarations_skip_failing_tool
           {| ToolManager.tools :=
                [(js "googleSearch", Sample.search_tool)]
                  ++ (js "broken", Sample.broken_tool)
                  :: [(js "weather", WeatherTool.instance Sample.march_1st)] |}
           [(js "googleSearch", Sample.search_tool)]
           [(js "weather", WeatherTool.instance Sample.march_1st)]
           (js "broken") Sample.broken_tool).
  - reflexivity.
  - intros entry [<- | [<- | []]]; eexists; split; reflexivity.
  - left. eexists. reflexivity.
Defined.

(** ** Dispatch *)

Section DispatchFacts.
Import ToolManager.

Lemma handleToolCall_unfold (functionCall : FunctionCall) (this : This) :
  handleToolCall functionCall this =
  match findTool (tools this) (name functionCall) with
  | None => (Throw (unknown_tool (name functionCall)), this)
  | Some tool =>
      if Tool.falsy tool
      then (Throw (unknown_tool (name functionCall)), this)
      else
        (match Tool.call_execute tool (args functionCall) with
         | Tool.Fulfilled result =>
             Normal (functionResponses (JObj [(js "output", result)])
                       (id functionCall))
         | Tool.Rejected error =>
             match Tool.read_message error with
             | Normal error_message =>
                 Normal (functionResponses
                           (JObj [(js "error", error_message)])
                           (id functionCall))
             | Throw fault => Throw fault
             end
         end, this)
  end.
Proof.
  unfold handleToolCall, mbind, this_tools, throw, lift. simpl.
  destruct (findTool (tools this) (name functionCall)) as [tool|]; [|reflexivity].
  destruct (Tool.falsy tool); [reflexivity|].
  destruct (Tool.call_execute tool (args functionCall)) as [result|error];
    [reflexivity|].
  simpl. destruct (Tool.read_message error); reflexivity.
Qed.

(** A dispatch never changes the registry. *)
Lemma handleToolCall_reads_only (functionCall : FunctionCall) (this : This) :
  snd (handleToolCall functionCall this) = this.
Proof.
  rewrite handleToolCall_unfold.
  destruct (findTool (tools this) (name functionCall)) as [tool|]; [|reflexivity].
  destruct (Tool.falsy tool); reflexivity.
Qed.

Lemma findTool_direct (m : ToolMap) (name : jsstring) :
  name <> js "get_weather_on_date" -> name <> js "sendEmail" ->
  findTool m name = Map_get m name.
Proof.
  intros Hw He. unfold findTool.
  apply str_eqb_neq in Hw, He. now rewrite Hw, He.
Qed.

(** A tool stored under the name of an alias is never looked at. *)
Lemma findTool_ignores_alias_keys (m : ToolMap) (alias name : jsstring)
      (plugin : ToolValue) :
  alias = js "get_weather_on_date" \/ alias = js "sendEmail" ->
  findTool (Map_set m alias plugin) name = findTool m name.
Proof.
  intros Halias. unfold findTool.
  destruct (str_eqb name (js "get_weather_on_date")) eqn:Ew.
  - apply Map_get_set_other. destruct Halias as [-> | ->]; vm_compute; discriminate.
  - destruct (str_eqb name (js "sendEmail")) eqn:Ee.
    + apply Map_get_set_other. destruct Halias as [-> | ->]; vm_compute; discriminate.
    + apply Map_get_set_other. apply str_eqb_neq in Ew, Ee.
      destruct Halias as [-> | ->]; congruence.
Qed.

(** The mail tool refuses an empty recipient before it looks at its
    configuration or at the transport. *)
Lemma EmailTool_missing_recipient (env : EmailTool.Env) (args : JsValue) :
  nullish args = false ->
  truthy (get_prop (js "to") args) = false ->
  EmailTool.execute env args
  = Throw (Error (js "Missing required fields: to, subject, or body.")).
Proof.
  intros Hargs Hto. unfold EmailTool.execute. now rewrite Hargs, Hto.
Qed.

(** Construction registers the three default tools when the search tool
    has a [getDeclaration] method. *)
Lemma constructor_registers_defaults (w : World) :
  Tool.has_getDeclaration (googleSearch w) = true ->
  constructor w
  = (Normal tt,
     {| tools := [ (js "googleSearch", googleSearch w);
                   (js "weather", WeatherTool.instance (today w));
                   (js "email", EmailTool.instance (mail w)) ] |}).
Proof.
  intros Hg. unfold constructor, registerDefaultTools, mbind.
  rewrite (registerTool_accepts (js "googleSearch") (googleSearch w)
             {| tools := [] |} eq_refl Hg).
  cbn [tools app].
  rewrite (registerTool_accepts (js "weather") (WeatherTool.instance (today w))
             {| tools := [(js "googleSearch", googleSearch w)] |}
             eq_refl eq_refl).
  cbn [tools app].
  now rewrite (registerTool_accepts (js "email") (EmailTool.instance (mail w))
                 {| tools := [(js "googleSearch", googleSearch w);
                              (js "weather", WeatherTool.instance (today w))] |}
                 eq_refl eq_refl).
Qed.

End DispatchFacts.

(** What [handleToolCall] does with a failure of [execute] whose
    [message] can be read: it returns the envelope whose single entry has
    the call's id and the response [{error: message}]. *)
Lemma execute_failure_reported
      (this : ToolManager.This) (functionCall : ToolManager.FunctionCall)
      (tool : ToolValue) (error : Tool.Thrown) (error_message : JsValue) :
  ToolManager.findTool (ToolManager.tools this) (ToolManager.name functionCall)
  = Some tool ->
  Tool.falsy tool = false ->
  Tool.call_execute tool (ToolManager.args functionCall) = Tool.Rejected error ->
  Tool.read_message error = Normal error_message ->
  ToolManager.handleToolCall functionCall this
  = (Normal (JObj [(js "functionResponses",
                    JArr [JObj [(js "response",
                                 JObj [(js "error", error_message)]);
                                (js "id", JStr (ToolManager.id functionCall))]])]),
     this).
Proof.
  intros Hfind Husable Hrejected Hread.
  now rewrite handleToolCall_unfold, Hfind, Husable, Hrejected, Hread.
Qed.

(** The mail tool called without a recipient: the manager answers with the
    error entry that carries the mail tool's own message. *)
Lemma mail_without_recipient_reported
      (this : ToolManager.This) (env : EmailTool.Env)
      (functionCall : ToolManager.FunctionCall) :
  ToolManager.findTool (ToolManager.tools this) (ToolManager.name functionCall)
  = Some (EmailTool.instance env) ->
  nullish (ToolManager.args functionCall) = false ->
  truthy (get_prop (js "to") (ToolManager.args functionCall)) = false ->
  ToolManager.handleToolCall functionCall this
  = (Normal (JObj [(js "functionResponses",
                    JArr [JObj [(js "response",
                                 JObj [(js "error",
                                        JStr (js "Missing required fields: to, subject, or body."))]);
                                (js "id", JStr (ToolManager.id functionCall))]])]),
     this).
Proof.
  intros Hfind Hargs Hto.
  apply (execute_failure_reported this functionCall (EmailTool.instance env)
           (Tool.ErrorObject
              (Error (js "Missing required fields: to, subject, or body.")))).
  - exact Hfind.
  - reflexivity.
  - simpl. now rewrite EmailTool_missing_recipient.
  - reflexivity.
Qed.

(** C1 at a tool that rejects with [null] or [undefined]: the failure is
    not isolated.  When the name of a call stands for a registered tool
    whose [execute] rejects with such a value, the catch clause itself
    fails on reading [error.message]; [handleToolCall] returns no envelope,
    the promise it hands to its caller is rejected with that fault. *)
Theorem C1_nullish_rejection_escapes
        (this : ToolManager.This) (functionCall : ToolManager.FunctionCall)
        (tool : ToolValue) (reason : JsValue) :
  ToolManager.findTool (ToolManager.tools this) (ToolManager.name functionCall)
  = Some tool ->
  Tool.falsy tool = false ->
  Tool.call_execute tool (ToolManager.args functionCall)
  = Tool.Rejected (Tool.OtherValue reason) ->
  nullish reason = true ->
  ToolManager.handleToolCall functionCall this
  = (Throw (TypeError (CannotReadProperty (js "message") reason)), this)
  /\ ToolManager.handleToolCall_call functionCall this
     = (Normal (ToolManager.RejectedWith
                  (TypeError (CannotReadProperty (js "message") reason))),
        this).
Proof.
  intros Hfind Husable Hrejected Hnullish.
  assert (ToolManager.handleToolCall functionCall this
          = (Throw (TypeError (CannotReadProperty (js "message") reason)), this))
    as Hbody.
  { rewrite handleToolCall_unfold, Hfind, Husable, Hrejected.
    simpl. now rewrite Hnullish. }
  split; [exact Hbody|].
  unfold ToolManager.handleToolCall_call, ToolManager.async. now rewrite Hbody.
Qed.

(** The failing input of C1: a tool registered as [flaky] whose [execute]
    rejects with no reason. *)
Lemma C1_nullish_rejection_escapes_witness :
  ToolManager.handleToolCall
    {| ToolManager.name := js "flaky"; ToolManager.args := JObj [];
       ToolManager.id := js "x" |}
    {| ToolManager.tools :=
         ToolManager.tools Sample.manager ++ [(js "flaky", Sample.rejecting_tool)] |}
  = (Throw (TypeError (CannotReadProperty (js "message") JUndefined)),
     {| ToolManager.tools :=
          ToolManager.tools Sample.manager ++ [(js "flaky", Sample.rejecting_tool)] |})
  /\ ToolManager.handleToolCall_call
       {| ToolManager.name := js "flaky"; ToolManager.args := JObj [];
          ToolManager.id := js "x" |}
       {| ToolManager.tools :=
            ToolManager.tools Sample.manager ++ [(js "flaky", Sample.rejecting_tool)] |}
     = (Normal (ToolManager.RejectedWith
                  (TypeError (CannotReadProperty (js "message") JUndefined))),
        {| ToolManager.tools :=
             ToolManager.tools Sample.manager ++ [(js "flaky", Sample.rejecting_tool)] |}).
Proof.
  apply (C1_nullish_rejection_escapes
           {| ToolManager.tools :=
                ToolManager.tools Sample.manager
                  ++ [(js "flaky", Sample.rejecting_tool)] |}
           {| ToolManager.name := js "flaky"; ToolManager.args := JObj [];
              ToolManager.id := js "x" |}
           Sample.rejecting_tool JUndefined);
    reflexivity.
Defined.

(** C2 does not hold as worded: [handleToolCall] is an [async] method, so
    the call with an unknown name does not raise; it returns normally, with
    a promise. *)
Lemma C2_unknown_tool_is_not_raised_by_the_call :
  ~ (forall (this : ToolManager.This) (functionCall : ToolManager.FunctionCall),
        ToolManager.name functionCall <> js "get_weather_on_date" ->
        ToolManager.name functionCall <> js "sendEmail" ->
        ToolManager.Map_has (ToolManager.tools this)
          (ToolManager.name functionCall) = false ->
        fst (ToolManager.handleToolCall_call functionCall this)
        = Throw (ToolManager.unknown_tool (ToolManager.name functionCall))).
Proof.
  intros H.
  specialize (H Sample.manager
                {| ToolManager.name := js "translate"; ToolManager.args := JObj [];
                   ToolManager.id := js "x" |}).
  cbn [ToolManager.name] in H.
  assert (fst (ToolManager.handleToolCall_call
                 {| ToolManager.name := js "translate"; ToolManager.args := JObj [];
                    ToolManager.id := js "x" |} Sample.manager)
          = Normal (ToolManager.RejectedWith
                      (ToolManager.unknown_tool (js "translate")))) as Hcall
    by reflexivity.
  rewrite Hcall in H.
  assert (@Normal ToolManager.Promise
            (ToolManager.RejectedWith (ToolManager.unknown_tool (js "translate")))
          = Throw (ToolManager.unknown_tool (js "translate"))) as Habsurd.
  { apply H; [vm_compute; discriminate | vm_compute; discriminate | reflexivity]. }
  discriminate Habsurd.
Qed.

(** C2, for the promise.  A call whose name is neither of the two aliases
    nor a key of the registry returns no envelope: the promise that
    [handleToolCall] hands back is rejected with the unknown-tool error,
    and the registry is as before.  That error arises only for a name that
    stands for no usable tool; for a tool that is found, every outcome of
    [execute] whose message can be read fulfils the promise with an
    envelope. *)
Theorem C2_unknown_tool_rejects_promise
        (this : ToolManager.This) (functionCall : ToolManager.FunctionCall) :
  (ToolManager.name functionCall <> js "get_weather_on_date" ->
   ToolManager.name functionCall <> js "sendEmail" ->
   ToolManager.Map_has (ToolManager.tools this) (ToolManager.name functionCall)
   = false ->
   ToolManager.handleToolCall_call functionCall this
   = (Normal (ToolManager.RejectedWith
                (ToolManager.unknown_tool (ToolManager.name functionCall))),
      this))
  /\ (forall name this',
         ToolManager.handleToolCall_call functionCall this
         = (Normal (ToolManager.RejectedWith (ToolManager.unknown_tool name)), this') ->
         match ToolManager.findTool (ToolManager.tools this)
                 (ToolManager.name functionCall) with
         | Some tool => Tool.falsy tool = true
         | None => True
         end)
  /\ (forall tool,
         ToolManager.findTool (ToolManager.tools this)
           (ToolManager.name functionCall) = Some tool ->
         Tool.falsy tool = false ->
         (forall reason,
             Tool.call_execute tool (ToolManager.args functionCall)
             = Tool.Rejected reason ->
             exists error_message, Tool.read_message reason = Normal error_message) ->
         exists entry,
           ToolManager.handleToolCall_call functionCall this
           = (Normal (ToolManager.Resolved
                        (JObj [(js "functionResponses", JArr [entry])])),
              this)).
Proof.
  unfold ToolManager.handleToolCall_call, ToolManager.async.
  rewrite handleToolCall_unfold.
  split; [|split].
  - intros Hw He Hnew. rewrite findTool_direct by assumption.
    apply Map_has_false in Hnew. now rewrite Hnew.
  - intros name this'.
    destruct (ToolManager.findTool (ToolManager.tools this)
                (ToolManager.name functionCall)) as [tool|]; [|trivial].
    destruct (Tool.falsy tool); [reflexivity|].
    destruct (Tool.call_execute tool (ToolManager.args functionCall))
      as [result|reason]; [discriminate|].
    destruct reason as [e|v]; simpl; [discriminate|].
    destruct (nullish v); discriminate.
  - intros tool Hfind Husable Hreadable. rewrite Hfind, Husable.
    destruct (Tool.call_execute tool (ToolManager.args functionCall))
      as [result|reason].
    + eexists. reflexivity.
    + destruct (Hreadable reason eq_refl) as [error_message ->].
      eexists. reflexivity.
Qed.

(** An instance of C2: a name that is not registered. *)
Lemma C2_unknown_tool_rejects_promise_witness :
  ToolManager.handleToolCall_call
    {| ToolManager.name := js "translate"; ToolManager.args := JObj [];
       ToolManager.id := js "x" |}
    Sample.manager
  = (Normal (ToolManager.RejectedWith (ToolManager.unknown_tool (js "translate"))),
     Sample.manager).
Proof.
  apply (proj1 (C2_unknown_tool_rejects_promise Sample.manager
                  {| ToolManager.name := js "translate"; ToolManager.args := JObj [];
                     ToolManager.id := js "x" |}));
    [vm_compute; discriminate | vm_compute; discriminate | reflexivity].
Defined.

(** When [execute] returns, or fails with a message that can be read,
    [handleToolCall] returns an envelope with exactly one entry; the entry
    has the call's id, and its response has exactly one of the fields
    [output] and [error]: [output], holding the result, when [execute]
    returned, and [error], holding the message, when it failed. *)
Lemma single_entry_when_message_readable
      (this : ToolManager.This) (functionCall : ToolManager.FunctionCall)
      (tool : ToolValue) :
  ToolManager.findTool (ToolManager.tools this) (ToolManager.name functionCall)
  = Some tool ->
  Tool.falsy tool = false ->
  (forall reason,
      Tool.call_execute tool (ToolManager.args functionCall) = Tool.Rejected reason ->
      exists error_message, Tool.read_message reason = Normal error_message) ->
  exists response,
    ToolManager.handleToolCall functionCall this
    = (Normal (JObj [(js "functionResponses",
                      JArr [JObj [(js "response", response);
                                  (js "id", JStr (ToolManager.id functionCall))]])]),
       this)
    /\ xorb (has_prop (js "output") response) (has_prop (js "error") response)
       = true
    /\ (has_prop (js "output") response = true <->
        exists result,
          Tool.call_execute tool (ToolManager.args functionCall)
          = Tool.Fulfilled result
          /\ response = JObj [(js "output", result)])
    /\ (has_prop (js "error") response = true <->
        exists reason error_message,
          Tool.call_execute tool (ToolManager.args functionCall)
          = Tool.Rejected reason
          /\ Tool.read_message reason = Normal error_message
          /\ response = JObj [(js "error", error_message)]).
Proof.
  intros Hfind Husable Hreadable.
  rewrite handleToolCall_unfold, Hfind, Husable.
  destruct (Tool.call_execute tool (ToolManager.args functionCall))
    as [result|reason].
  - eexists. split; [reflexivity|]. split; [reflexivity|].
    split; split.
    + intros _. exists result. split; reflexivity.
    + intros _. reflexivity.
    + discriminate.
    + intros (r & m & Hr & _). discriminate Hr.
  - destruct (Hreadable reason eq_refl) as [error_message Hread]. rewrite Hread.
    eexists. split; [reflexivity|]. split; [reflexivity|].
    split; split.
    + discriminate.
    + intros (r & Hr & _). discriminate Hr.
    + intros _. exists reason, error_message. repeat split. exact Hread.
    + intros _. reflexivity.
Qed.

(** C6 at a tool that rejects with [null] or [undefined]: there is no
    entry at all.  When the name of a call stands for a registered tool
    whose [execute] rejects with such a value, [handleToolCall] returns no
    envelope, with neither an [output] nor an [error] for the call's id. *)
Theorem C6_no_entry_for_nullish_rejection
        (this : ToolManager.This) (functionCall : ToolManager.FunctionCall)
        (tool : ToolValue) (reason : JsValue) :
  ToolManager.findTool (ToolManager.tools this) (ToolManager.name functionCall)
  = Some tool ->
  Tool.falsy tool = false ->
  Tool.call_execute tool (ToolManager.args functionCall)
  = Tool.Rejected (Tool.OtherValue reason) ->
  nullish reason = true ->
  ~ exists envelope,
      fst (ToolManager.handleToolCall functionCall this) = Normal envelope.
Proof.
  intros Hfind Husable Hrejected Hnullish [envelope Henvelope].
  rewrite handleToolCall_unfold, Hfind, Husable, Hrejected in Henvelope.
  simpl in Henvelope. rewrite Hnullish in Henvelope. discriminate Henvelope.
Qed.

(** The failing input of C6: the tool registered as [flaky], whose
    [execute] rejects with no reason. *)
Lemma C6_no_entry_for_nullish_rejection_witness :
  ~ exists envelope,
      fst (ToolManager.handleToolCall
             {| ToolManager.name := js "flaky"; ToolManager.args := JObj [];
                ToolManager.id := js "y" |}
             {| ToolManager.tools :=
                  ToolManager.tools Sample.manager
                    ++ [(js "flaky", Sample.rejecting_tool)] |})
      = Normal envelope.
Proof.
  apply (C6_no_entry_for_nullish_rejection
           {| ToolManager.tools :=
                ToolManager.tools Sample.manager
                  ++ [(js "flaky", Sample.rejecting_tool)] |}
           {| ToolManager.name := js "flaky"; ToolManager.args := JObj [];
              ToolManager.id := js "y" |}
           Sample.rejecting_tool JUndefined);
    reflexivity.
Defined.

(** C8. Alias resolution: the name [get_weather_on_date] is looked up under
    the key [weather] and the name [sendEmail] under the key [email], which
    are the keys the weather tool and the mail tool are registered under at
    construction; every other name is looked up as it is. *)
Theorem C8_alias_resolution :
  (forall m,
      ToolManager.findTool m (js "get_weather_on_date")
      = ToolManager.Map_get m (js "weather"))
  /\ (forall m,
         ToolManager.findTool m (js "sendEmail")
         = ToolManager.Map_get m (js "email"))
  /\ (forall m name,
         name <> js "get_weather_on_date" -> name <> js "sendEmail" ->
         ToolManager.findTool m name = ToolManager.Map_get m name)
  /\ (forall w,
         Tool.has_getDeclaration (ToolManager.googleSearch w) = true ->
         exists this,
           ToolManager.constructor w = (Normal tt, this)
           /\ ToolManager.findTool (ToolManager.tools this)
                (js "get_weather_on_date")
              = Some (WeatherTool.instance (ToolManager.today w))
           /\ ToolManager.findTool (ToolManager.tools this) (js "sendEmail")
              = Some (EmailTool.instance (ToolManager.mail w))).
Proof.
  split; [reflexivity|]. split; [reflexivity|].
  split; [intros m name; apply findTool_direct|].
  intros w Hg. eexists. split; [now apply constructor_registers_defaults|].
  split; reflexivity.
Qed.

(** An instance of C8: the manager built in the sample world, and a name
    that is no alias. *)
Lemma C8_alias_resolution_witness :
  ToolManager.findTool (ToolManager.tools Sample.manager) (js "googleSearch")
  = ToolManager.Map_get (ToolManager.tools Sample.manager) (js "googleSearch")
  /\ exists this,
      ToolManager.constructor Sample.world = (Normal tt, this)
      /\ ToolManager.findTool (ToolManager.tools this) (js "get_weather_on_date")
         = Some (WeatherTool.instance Sample.march_1st)
      /\ ToolManager.findTool (ToolManager.tools this) (js "sendEmail")
         = Some (EmailTool.instance Sample.no_credentials).
Proof.
  split.
  - apply (proj1 (proj2 (proj2 C8_alias_resolution))
             (ToolManager.tools Sample.manager) (js "googleSearch"));
      vm_compute; discriminate.
  - apply (proj2 (proj2 (proj2 C8_alias_resolution)) Sample.world).
    reflexivity.
Defined.

(** C10. The aliases win over the registry keys: the names
    [get_weather_on_date] and [sendEmail] are looked up under [weather] and
    [email] also when a tool is stored under the alias name itself, and
    storing a tool under an alias name changes the outcome of no call: that
    tool cannot be reached. *)
Theorem C10_alias_precedence :
  (forall m plugin,
      ToolManager.findTool
        (ToolManager.Map_set m (js "get_weather_on_date") plugin)
        (js "get_weather_on_date")
      = ToolManager.Map_get m (js "weather"))
  /\ (forall m plugin,
         ToolManager.findTool
           (ToolManager.Map_set m (js "sendEmail") plugin) (js "sendEmail")
         = ToolManager.Map_get m (js "email"))
  /\ (forall this plugin functionCall,
         fst (ToolManager.handleToolCall functionCall
                {| ToolManager.tools :=
                     ToolManager.Map_set (ToolManager.tools this)
                       (js "get_weather_on_date") plugin |})
         = fst (ToolManager.handleToolCall functionCall this))
  /\ (forall this plugin functionCall,
         fst (ToolManager.handleToolCall functionCall
                {| ToolManager.tools :=
                     ToolManager.Map_set (ToolManager.tools this)
                       (js "sendEmail") plugin |})
         = fst (ToolManager.handleToolCall functionCall this)).
Proof.
  assert (forall alias this plugin functionCall,
             alias = js "get_weather_on_date" \/ alias = js "sendEmail" ->
             fst (ToolManager.handleToolCall functionCall
                    {| ToolManager.tools :=
                         ToolManager.Map_set (ToolManager.tools this) alias plugin |})
             = fst (ToolManager.handleToolCall functionCall this)) as Hsame.
  { intros alias this plugin functionCall Halias.
    rewrite !handleToolCall_unfold. cbn [ToolManager.tools].
    rewrite (findTool_ignores_alias_keys _ alias _ plugin Halias).
    destruct (ToolManager.findTool (ToolManager.tools this)
                (ToolManager.name functionCall)) as [tool|]; [|reflexivity].
    destruct (Tool.falsy tool); reflexivity. }
  split.
  { intros m plugin.
    rewrite (findTool_ignores_alias_keys m _ _ plugin (or_introl eq_refl)).
    reflexivity. }
  split.
  { intros m plugin.
    rewrite (findTool_ignores_alias_keys m _ _ plugin (or_intror eq_refl)).
    reflexivity. }
  split; intros this plugin functionCall; apply Hsame; [now left | now right].
Qed.

(* ================================================================== *)
(** * Further properties of the code *)

(** ** The hash of the weather tool *)

Section HashFacts.
Import WeatherTool.

Lemma ToInt32_shift (x : Z) : exists k, ToInt32 x = x + k * 2 ^ 32.
Proof.
  unfold ToInt32. exists (- ((x + 2 ^ 31) / 2 ^ 32)).
  pose proof (Z.div_mod (x + 2 ^ 31) (2 ^ 32) ltac:(lia)). lia.
Qed.

Lemma ToInt32_congruent (a b k : Z) : a = b + k * 2 ^ 32 -> ToInt32 a = ToInt32 b.
Proof.
  intros ->. unfold ToInt32.
  replace (b + k * 2 ^ 32 + 2 ^ 31) with (b + 2 ^ 31 + k * 2 ^ 32) by lia.
  now rewrite Z_mod_plus_full.
Qed.

(** One turn of the loop multiplies by 31 and adds the code unit, modulo
    2^32. *)
Lemma hash_step (p c : Z) :
  (let hash := (shl (ToInt32 p) 5 - ToInt32 p) + c in band hash hash)
  = ToInt32 (31 * p + c).
Proof.
  cbv zeta. rewrite band_diag. unfold shl.
  change (Z.land 5 31) with 5. rewrite Z.shiftl_mul_pow2 by lia.
  destruct (ToInt32_shift p) as [k Hk].
  destruct (ToInt32_shift (ToInt32 p)) as [k1 Hk1].
  destruct (ToInt32_shift (ToInt32 (ToInt32 p) * 2 ^ 5)) as [k2 Hk2].
  apply (ToInt32_congruent _ _ (k2 + 32 * k1 + 31 * k)). lia.
Qed.

Lemma hash_loop_poly (str : jsstring) (p : Z) :
  fold_left (fun hash char =>
               let hash := (shl hash 5 - hash) + char in band hash hash)
            str (ToInt32 p)
  = ToInt32 (fold_left (fun h c => 31 * h + c) str p).
Proof.
  revert p. induction str as [|c str IH]; intros p; simpl; [reflexivity|].
  rewrite <- IH. f_equal. apply hash_step.
Qed.

End HashFacts.

(** [hashString] is the polynomial hash in base 31 of the code units,
    reduced to a signed 32-bit integer, in absolute value. *)
Theorem hashString_polynomial (str : jsstring) :
  WeatherTool.hashString str = Z.abs (ToInt32 (poly_hash str)).
Proof.
  unfold WeatherTool.hashString, poly_hash. cbv zeta. f_equal.
  exact (hash_loop_poly str 0).
Qed.

(** ** The current date *)

Section DateFacts.
Import WeatherTool.

Lemma year_digits (y : Z) :
  1000 <= y <= 9999 ->
  Number_toString y
  = [48 + y / 1000; 48 + (y / 100) mod 10; 48 + (y / 10) mod 10; 48 + y mod 10].
Proof.
  intros Hy.
  assert (forallb
            (fun n =>
               let y := 1000 + Z.of_nat n in
               str_eqb (Number_toString y)
                 [48 + y / 1000; 48 + (y / 100) mod 10; 48 + (y / 10) mod 10;
                  48 + y mod 10])
            (seq 0 (Z.to_nat 9000)) = true) as Hall by (vm_compute; reflexivity).
  rewrite forallb_forall in Hall.
  specialize (Hall (Z.to_nat (y - 1000))). cbv zeta in Hall.
  rewrite Z2Nat.id in Hall by lia.
  replace (1000 + (y - 1000)) with y in Hall by lia.
  apply str_eqb_eq, Hall, in_seq. lia.
Qed.

Lemma field_digits (n : Z) :
  1 <= n <= 31 ->
  padStart 2 (js "0") (Number_toString n) = [48 + n / 10; 48 + n mod 10].
Proof.
  intros Hn.
  assert (forallb
            (fun k =>
               let n := 1 + Z.of_nat k in
               str_eqb (padStart 2 (js "0") (Number_toString n))
                 [48 + n / 10; 48 + n mod 10])
            (seq 0 31) = true) as Hall by (vm_compute; reflexivity).
  rewrite forallb_forall in Hall.
  specialize (Hall (Z.to_nat (n - 1))). cbv zeta in Hall.
  rewrite Z2Nat.id in Hall by lia.
  replace (1 + (n - 1)) with n in Hall by lia.
  apply str_eqb_eq, Hall, in_seq. lia.
Qed.

End DateFacts.

(** For a four-digit year, a month index 0..11 and a day 1..31,
    [getCurrentDate] gives YYYY-MM-DD digit for digit: the four decimal
    digits of the year, a hyphen, the two decimal digits of the month
    counted from 1, a hyphen, and the two decimal digits of the day, a
    leading zero included (48 is the code unit of the digit 0). *)
Theorem getCurrentDate_format (today : WeatherTool.Date) :
  1000 <= WeatherTool.getFullYear today <= 9999 ->
  0 <= WeatherTool.getMonth today <= 11 ->
  1 <= WeatherTool.getDate today <= 31 ->
  WeatherTool.getCurrentDate today
  = [48 + WeatherTool.getFullYear today / 1000;
     48 + (WeatherTool.getFullYear today / 100) mod 10;
     48 + (WeatherTool.getFullYear today / 10) mod 10;
     48 + WeatherTool.getFullYear today mod 10]
    ++ js "-"
    ++ [48 + (WeatherTool.getMonth today + 1) / 10;
        48 + (WeatherTool.getMonth today + 1) mod 10]
    ++ js "-"
    ++ [48 + WeatherTool.getDate today / 10;
        48 + WeatherTool.getDate today mod 10].
Proof.
  intros Hy Hm Hd. unfold WeatherTool.getCurrentDate.
  rewrite (year_digits _ Hy).
  rewrite (field_digits (WeatherTool.getMonth today + 1)) by lia.
  rewrite (field_digits (WeatherTool.getDate today)) by lia.
  reflexivity.
Qed.

(** An instance: Christmas Day 2024. *)
Lemma getCurrentDate_format_witness :
  WeatherTool.getCurrentDate
    {| WeatherTool.getFullYear := 2024; WeatherTool.getMonth := 11;
       WeatherTool.getDate := 25 |}
  = [48 + 2024 / 1000; 48 + (2024 / 100) mod 10; 48 + (2024 / 10) mod 10;
     48 + 2024 mod 10]
    ++ js "-" ++ [48 + (11 + 1) / 10; 48 + (11 + 1) mod 10]
    ++ js "-" ++ [48 + 25 / 10; 48 + 25 mod 10].
Proof.
  apply (getCurrentDate_format
           {| WeatherTool.getFullYear := 2024; WeatherTool.getMonth := 11;
              WeatherTool.getDate := 25 |});
    simpl; lia.
Defined.

(** ** More on the weather tool *)

Section WeatherMore.
Import WeatherTool.

(** [execute] once the location and the forecast date have a string form. *)
Lemma execute_seeded (today : Date) (args : JsValue)
      (forecastDate : JsValue) (location_s forecastDate_s : jsstring) :
  nullish args = false ->
  ToString (get_prop (js "location") args) = Normal location_s ->
  or_else (get_prop (js "date") args) (JStr (getCurrentDate today)) = forecastDate ->
  ToString forecastDate = Normal forecastDate_s ->
  exists condition temp,
    index weatherConditions (rem (hashString (location_s ++ forecastDate_s)) 9)
    = Some condition
    /\ band_of condition temperatures = Some temp
    /\ 0 < max temp - min temp
    /\ execute today args =
       Normal (JObj [
         (js "location", get_prop (js "location") args);
         (js "date", forecastDate);
         (js "condition", JStr condition);
         (js "temperature",
           JNum (min temp + rem (hashString (location_s ++ forecastDate_s))
                                (max temp - min temp)));
         (js "humidity", JNum (40 + rem (hashString (location_s ++ forecastDate_s)) 40));
         (js "windSpeed", JNum (5 + rem (hashString (location_s ++ forecastDate_s)) 25));
         (js "forecast",
           JStr (js "The weather in " ++ location_s ++ js " on "
                   ++ forecastDate_s ++ js " will be " ++ condition
                   ++ js " with a temperature of "
                   ++ Number_toString
                        (min temp + rem (hashString (location_s ++ forecastDate_s))
                                        (max temp - min temp))
                   ++ degree_C))]).
Proof.
  intros Hargs Hl Hd Hf.
  pose proof (hashString_range (location_s ++ forecastDate_s)) as Hseed.
  destruct (condition_of_index (rem (hashString (location_s ++ forecastDate_s)) 9))
    as (condition & temp & Hi & _ & Hb & Hpos).
  { apply rem_range; lia. }
  exists condition, temp. repeat (split; [assumption|]).
  unfold execute. rewrite Hargs, Hd, Hl, Hf.
  cbn [bind try_catch].
  change (Z.of_nat (length weatherConditions)) with 9.
  rewrite Hi, Hb. reflexivity.
Qed.

End WeatherMore.

(** When the call gives a location string and no date (or a falsy one),
    the forecast is made for the current date: the result carries
    [getCurrentDate] as its date and its condition is drawn from the hash
    of the location followed by that date. *)
Theorem weather_defaults_to_current_date
        (today : WeatherTool.Date) (args : JsValue) (location : jsstring) :
  get_prop (js "location") args = JStr location ->
  truthy (get_prop (js "date") args) = false ->
  exists result condition,
    WeatherTool.execute today args = Normal result
    /\ get_prop (js "location") result = JStr location
    /\ get_prop (js "date") result = JStr (WeatherTool.getCurrentDate today)
    /\ get_prop (js "condition") result = JStr condition
    /\ index WeatherTool.weatherConditions
         (rem (WeatherTool.hashString
                 (location ++ WeatherTool.getCurrentDate today)) 9)
       = Some condition.
Proof.
  intros Hl Hd.
  assert (nullish args = false) as Hargs
    by (apply (get_prop_object (js "location")); rewrite Hl; discriminate).
  destruct (execute_seeded today args (JStr (WeatherTool.getCurrentDate today))
              location (WeatherTool.getCurrentDate today) Hargs)
    as (condition & temp & Hi & _ & _ & Hexec).
  - now rewrite Hl.
  - unfold or_else. now rewrite Hd.
  - reflexivity.
  - eexists; exists condition. split; [exact Hexec|].
    split; [now rewrite <- Hl|]. split; [reflexivity|]. split; [reflexivity|exact Hi].
Qed.

(** An instance: Manila with no date property. *)
Lemma weather_defaults_to_current_date_witness :
  exists result condition,
    WeatherTool.execute Sample.march_1st
      (JObj [(js "location", JStr (js "Manila"))]) = Normal result
    /\ get_prop (js "location") result = JStr (js "Manila")
    /\ get_prop (js "date") result
       = JStr (WeatherTool.getCurrentDate Sample.march_1st)
    /\ get_prop (js "condition") result = JStr condition
    /\ index WeatherTool.weatherConditions
         (rem (WeatherTool.hashString
                 (js "Manila" ++ WeatherTool.getCurrentDate Sample.march_1st)) 9)
       = Some condition.
Proof.
  apply (weather_defaults_to_current_date Sample.march_1st
           (JObj [(js "location", JStr (js "Manila"))]) (js "Manila"));
    reflexivity.
Defined.

(** The declaration lists [location] as required, but [execute] does not
    check it: a call without a location still returns a forecast, whose
    location is [undefined] and whose condition is drawn from the hash of
    the text [undefined] followed by the date. *)
Theorem weather_location_not_validated
        (today : WeatherTool.Date) (args : JsValue) (date : jsstring) :
  nullish args = false ->
  get_prop (js "location") args = JUndefined ->
  get_prop (js "date") args = JStr date ->
  date <> [] ->
  exists result condition,
    WeatherTool.execute today args = Normal result
    /\ get_prop (js "location") result = JUndefined
    /\ get_prop (js "date") result = JStr date
    /\ get_prop (js "condition") result = JStr condition
    /\ index WeatherTool.weatherConditions
         (rem (WeatherTool.hashString (js "undefined" ++ date)) 9)
       = Some condition.
Proof.
  intros Hargs Hl Hd Hne.
  destruct (execute_seeded today args (JStr date) (js "undefined") date Hargs)
    as (condition & temp & Hi & _ & _ & Hexec).
  - now rewrite Hl.
  - rewrite Hd. unfold or_else. apply truthy_JStr in Hne. now rewrite Hne.
  - reflexivity.
  - eexists; exists condition. split; [exact Hexec|].
    split; [now rewrite <- Hl|]. split; [reflexivity|]. split; [reflexivity|exact Hi].
Qed.

(** An instance: only a date is given. *)
Lemma weather_location_not_validated_witness :
  exists result condition,
    WeatherTool.execute Sample.march_1st
      (JObj [(js "date", JStr (js "2024-03-01"))]) = Normal result
    /\ get_prop (js "location") result = JUndefined
    /\ get_prop (js "date") result = JStr (js "2024-03-01")
    /\ get_prop (js "condition") result = JStr condition
    /\ index WeatherTool.weatherConditions
         (rem (WeatherTool.hashString (js "undefined" ++ js "2024-03-01")) 9)
       = Some condition.
Proof.
  apply (weather_location_not_validated Sample.march_1st
           (JObj [(js "date", JStr (js "2024-03-01"))]) (js "2024-03-01"));
    [reflexivity | reflexivity | reflexivity | vm_compute; discriminate].
Defined.

(** The temperature never reaches the upper end of its band, and the
    forecast sentence names the location, the date, the condition and the
    temperature that the result carries in its fields. *)
Theorem weather_forecast_sentence
        (today : WeatherTool.Date) (args : JsValue) (location date : jsstring) :
  get_prop (js "location") args = JStr location ->
  get_prop (js "date") args = JStr date ->
  exists result forecastDate condition temp temperature,
    WeatherTool.execute today args = Normal result
    /\ get_prop (js "date") result = JStr forecastDate
    /\ get_prop (js "condition") result = JStr condition
    /\ WeatherTool.band_of condition WeatherTool.temperatures = Some temp
    /\ get_prop (js "temperature") result = JNum temperature
    /\ WeatherTool.min temp <= temperature < WeatherTool.max temp
    /\ get_prop (js "forecast") result
       = JStr (js "The weather in " ++ location ++ js " on " ++ forecastDate
                 ++ js " will be " ++ condition ++ js " with a temperature of "
                 ++ Number_toString temperature ++ WeatherTool.degree_C).
Proof.
  intros Hl Hd.
  destruct (execute_on_strings today args location date Hl Hd)
    as (condition & temp & _ & _ & Hb & Hpos & Hexec).
  pose proof (hashString_range (location ++ forecastDate_of today date)) as Hseed.
  pose proof (rem_range _ _ (proj1 Hseed) Hpos) as Ht.
  eexists; exists (forecastDate_of today date), condition, temp; eexists.
  split; [exact Hexec|]. split; [reflexivity|]. split; [reflexivity|].
  split; [exact Hb|]. split; [reflexivity|]. split; [lia | reflexivity].
Qed.

(** An instance: Manila on 2024-03-01. *)
Lemma weather_forecast_sentence_witness :
  exists result forecastDate condition temp temperature,
    WeatherTool.execute Sample.march_1st (Sample.manila (js "2024-03-01"))
    = Normal result
    /\ get_prop (js "date") result = JStr forecastDate
    /\ get_prop (js "condition") result = JStr condition
    /\ WeatherTool.band_of condition WeatherTool.temperatures = Some temp
    /\ get_prop (js "temperature") result = JNum temperature
    /\ WeatherTool.min temp <= temperature < WeatherTool.max temp
    /\ get_prop (js "forecast") result
       = JStr (js "The weather in " ++ js "Manila" ++ js " on " ++ forecastDate
                 ++ js " will be " ++ condition ++ js " with a temperature of "
                 ++ Number_toString temperature ++ WeatherTool.degree_C).
Proof.
  apply (weather_forecast_sentence Sample.march_1st
           (Sample.manila (js "2024-03-01")) (js "Manila") (js "2024-03-01"));
    reflexivity.
Defined.

(** ** More on the mail tool *)

Section EmailMore.
Import EmailTool.

Lemma execute_past_validation (env : Env) (args : JsValue) :
  nullish args = false ->
  truthy (get_prop (js "to") args) = true ->
  truthy (get_prop (js "subject") args) = true ->
  truthy (get_prop (js "body") args) = true ->
  execute env args =
  (config_user <- config_email env (js "USER") ;;
   config_password <- config_email env (js "PASSWORD") ;;
   let emailUser := or_else config_user (EMAIL_USER env) in
   let emailPassword := or_else config_password (EMAIL_PASSWORD env) in
   if negb (truthy emailUser) || negb (truthy emailPassword)
   then Throw (Error (js "Email credentials are not configured. Please set EMAIL_USER and EMAIL_PASSWORD in CONFIG or environment variables."))
   else
     try_catch
       (_ <- sendMail env
               (JObj [(js "service", JStr (js "gmail"));
                      (js "auth", JObj [(js "user", emailUser);
                                        (js "pass", emailPassword)])])
               (JObj [(js "from", emailUser);
                      (js "to", get_prop (js "to") args);
                      (js "subject", get_prop (js "subject") args);
                      (js "text", get_prop (js "body") args)]) ;;
        Normal (JStr (js "Email sent successfully.")))
       (fun error => Throw (Error (js "Failed to send email: " ++ message error)))).
Proof.
  intros Hargs Hto Hsubject Hbody. unfold execute.
  rewrite Hargs, Hto, Hsubject, Hbody. cbn [negb orb].
  destruct (config_email env (js "USER")); [|reflexivity].
  cbn [bind]. destruct (config_email env (js "PASSWORD")); reflexivity.
Qed.

End EmailMore.

(** The mail tool checks its three fields before anything else: when
    [to], [subject] or [body] is missing or falsy it throws the
    missing-fields error, whatever the configuration, the environment and
    the transport are. *)
Theorem email_requires_all_fields (env : EmailTool.Env) (args : JsValue) :
  nullish args = false ->
  truthy (get_prop (js "to") args) = false
  \/ truthy (get_prop (js "subject") args) = false
  \/ truthy (get_prop (js "body") args) = false ->
  EmailTool.execute env args
  = Throw (Error (js "Missing required fields: to, subject, or body.")).
Proof.
  intros Hargs Hmissing. unfold EmailTool.execute. rewrite Hargs.
  destruct Hmissing as [-> | [-> | ->]]; cbn [negb orb];
    rewrite ?orb_true_r; reflexivity.
Qed.

(** An instance: a mail without a body. *)
Lemma email_requires_all_fields_witness :
  EmailTool.execute Sample.no_credentials
    (JObj [(js "to", JStr (js "a@b.c")); (js "subject", JStr (js "s"))])
  = Throw (Error (js "Missing required fields: to, subject, or body.")).
Proof.
  apply (email_requires_all_fields Sample.no_credentials
           (JObj [(js "to", JStr (js "a@b.c")); (js "subject", JStr (js "s"))]));
    [reflexivity | right; right; reflexivity].
Defined.

(** With the three fields given and an [EMAIL] section in the
    configuration, the mail tool throws the credentials error, whatever the
    transport is, when neither the configuration nor the environment gives
    a user, or neither gives a password. *)
Theorem email_requires_credentials (env : EmailTool.Env) (args : JsValue) :
  nullish args = false ->
  truthy (get_prop (js "to") args) = true ->
  truthy (get_prop (js "subject") args) = true ->
  truthy (get_prop (js "body") args) = true ->
  nullish (EmailTool.CONFIG_EMAIL env) = false ->
  (truthy (get_prop (js "USER") (EmailTool.CONFIG_EMAIL env)) = false
   /\ truthy (EmailTool.EMAIL_USER env) = false)
  \/ (truthy (get_prop (js "PASSWORD") (EmailTool.CONFIG_EMAIL env)) = false
      /\ truthy (EmailTool.EMAIL_PASSWORD env) = false) ->
  EmailTool.execute env args
  = Throw (Error (js "Email credentials are not configured. Please set EMAIL_USER and EMAIL_PASSWORD in CONFIG or environment variables.")).
Proof.
  intros Hargs Hto Hsubject Hbody Hcfg Hmissing.
  rewrite execute_past_validation by assumption.
  unfold EmailTool.config_email.
  rewrite Hcfg. cbn [bind]. unfold or_else.
  destruct Hmissing as [[Hc He] | [Hc He]]; rewrite Hc, He; cbn [negb orb];
    rewrite ?orb_true_r; reflexivity.
Qed.

(** An instance: an empty [EMAIL] section, a user but no password in the
    environment. *)
Lemma email_requires_credentials_witness :
  EmailTool.execute
    {| EmailTool.CONFIG_EMAIL := JObj [];
       EmailTool.EMAIL_USER := JStr (js "me@x.y");
       EmailTool.EMAIL_PASSWORD := JUndefined;
       EmailTool.sendMail := fun _ _ => Normal JUndefined |}
    (JObj [(js "to", JStr (js "a@b.c")); (js "subject", JStr (js "s"));
           (js "body", JStr (js "b"))])
  = Throw (Error (js "Email credentials are not configured. Please set EMAIL_USER and EMAIL_PASSWORD in CONFIG or environment variables.")).
Proof.
  apply (email_requires_credentials
           {| EmailTool.CONFIG_EMAIL := JObj [];
              EmailTool.EMAIL_USER := JStr (js "me@x.y");
              EmailTool.EMAIL_PASSWORD := JUndefined;
              EmailTool.sendMail := fun _ _ => Normal JUndefined |}
           (JObj [(js "to", JStr (js "a@b.c")); (js "subject", JStr (js "s"));
                  (js "body", JStr (js "b"))]));
    try reflexivity.
  right. split; reflexivity.
Defined.

(** Credentials given in the configuration win over the environment: when
    [CONFIG.EMAIL] has a truthy user and a truthy password, the outcome of
    [execute] does not depend on the two environment variables. *)
Theorem email_config_wins_over_environment
        (env : EmailTool.Env) (args user password : JsValue) :
  truthy (get_prop (js "USER") (EmailTool.CONFIG_EMAIL env)) = true ->
  truthy (get_prop (js "PASSWORD") (EmailTool.CONFIG_EMAIL env)) = true ->
  EmailTool.execute (with_variables env user password) args
  = EmailTool.execute env args.
Proof.
  intros Hu Hp. unfold EmailTool.execute.
  destruct (nullish args); [reflexivity|].
  destruct (negb (truthy (get_prop (js "to") args))
            || negb (truthy (get_prop (js "subject") args))
            || negb (truthy (get_prop (js "body") args))); [reflexivity|].
  unfold EmailTool.config_email, with_variables.
  cbn [EmailTool.CONFIG_EMAIL EmailTool.EMAIL_USER EmailTool.EMAIL_PASSWORD
       EmailTool.sendMail].
  destruct (nullish (EmailTool.CONFIG_EMAIL env)); [reflexivity|].
  cbn [bind]. unfold or_else. rewrite Hu, Hp. reflexivity.
Qed.

(** An instance: configured credentials, and other ones in the
    environment. *)
Lemma email_config_wins_over_environment_witness :
  EmailTool.execute
    (with_variables
       {| EmailTool.CONFIG_EMAIL :=
            JObj [(js "USER", JStr (js "me@x.y")); (js "PASSWORD", JStr (js "pw"))];
          EmailTool.EMAIL_USER := JUndefined;
          EmailTool.EMAIL_PASSWORD := JUndefined;
          EmailTool.sendMail := fun _ options => Normal options |}
       (JStr (js "other@x.y")) (JStr (js "secret")))
    (JObj [(js "to", JStr (js "a@b.c")); (js "subject", JStr (js "s"));
           (js "body", JStr (js "b"))])
  = EmailTool.execute
      {| EmailTool.CONFIG_EMAIL :=
           JObj [(js "USER", JStr (js "me@x.y")); (js "PASSWORD", JStr (js "pw"))];
         EmailTool.EMAIL_USER := JUndefined;
         EmailTool.EMAIL_PASSWORD := JUndefined;
         EmailTool.sendMail := fun _ options => Normal options |}
      (JObj [(js "to", JStr (js "a@b.c")); (js "subject", JStr (js "s"));
             (js "body", JStr (js "b"))]).
Proof.
  apply (email_config_wins_over_environment
           {| EmailTool.CONFIG_EMAIL :=
                JObj [(js "USER", JStr (js "me@x.y")); (js "PASSWORD", JStr (js "pw"))];
              EmailTool.EMAIL_USER := JUndefined;
              EmailTool.EMAIL_PASSWORD := JUndefined;
              EmailTool.sendMail := fun _ options => Normal options |});
    reflexivity.
Defined.

(** With the three fields and both credentials in place, the transport is
    created for the gmail service with the credentials and is handed the
    mail with the user as sender and the body as text.  What [execute]
    returns is the fixed success text, whatever the transport answers; a
    failure of the transport is thrown again as an [Error] whose message is
    the transport's, after the prefix [Failed to send email: ]. *)
Theorem email_send_outcome (env : EmailTool.Env) (args user password : JsValue) :
  nullish args = false ->
  truthy (get_prop (js "to") args) = true ->
  truthy (get_prop (js "subject") args) = true ->
  truthy (get_prop (js "body") args) = true ->
  nullish (EmailTool.CONFIG_EMAIL env) = false ->
  or_else (get_prop (js "USER") (EmailTool.CONFIG_EMAIL env))
          (EmailTool.EMAIL_USER env) = user ->
  or_else (get_prop (js "PASSWORD") (EmailTool.CONFIG_EMAIL env))
          (EmailTool.EMAIL_PASSWORD env) = password ->
  truthy user = true ->
  truthy password = true ->
  match EmailTool.sendMail env
          (JObj [(js "service", JStr (js "gmail"));
                 (js "auth", JObj [(js "user", user); (js "pass", password)])])
          (JObj [(js "from", user);
                 (js "to", get_prop (js "to") args);
                 (js "subject", get_prop (js "subject") args);
                 (js "text", get_prop (js "body") args)]) with
  | Normal _ =>
      EmailTool.execute env args = Normal (JStr (js "Email sent successfully."))
  | Throw error =>
      EmailTool.execute env args
      = Throw (Error (js "Failed to send email: " ++ message error))
  end.
Proof.
  intros Hargs Hto Hsubject Hbody Hcfg Hu Hp Htu Htp.
  rewrite execute_past_validation by assumption.
  unfold EmailTool.config_email. rewrite Hcfg. cbn [bind].
  rewrite Hu, Hp, Htu, Htp. cbn [negb orb].
  destruct (EmailTool.sendMail env _ _); reflexivity.
Qed.

(** An instance: credentials from the environment, and a transport that
    refuses the connection. *)
Lemma email_send_outcome_witness :
  EmailTool.execute
    {| EmailTool.CONFIG_EMAIL := JObj [];
       EmailTool.EMAIL_USER := JStr (js "me@x.y");
       EmailTool.EMAIL_PASSWORD := JStr (js "pw");
       EmailTool.sendMail := fun _ _ => Throw (Error (js "connection refused")) |}
    (JObj [(js "to", JStr (js "a@b.c")); (js "subject", JStr (js "s"));
           (js "body", JStr (js "b"))])
  = Throw (Error (js "Failed to send email: " ++ js "connection refused")).
Proof.
  apply (email_send_outcome
           {| EmailTool.CONFIG_EMAIL := JObj [];
              EmailTool.EMAIL_USER := JStr (js "me@x.y");
              EmailTool.EMAIL_PASSWORD := JStr (js "pw");
              EmailTool.sendMail :=
                fun _ _ => Throw (Error (js "connection refused")) |}
           (JObj [(js "to", JStr (js "a@b.c")); (js "subject", JStr (js "s"));
                  (js "body", JStr (js "b"))])
           (JStr (js "me@x.y")) (JStr (js "pw")));
    reflexivity.
Defined.

(** The example configuration has no [EMAIL] section.  With it as
    [CONFIG], a mail that passes the check of its fields fails on reading
    [CONFIG.EMAIL.USER], whatever the environment variables are, and a
    manager that routes [sendEmail] to this tool answers with the error
    entry of that fault. *)
Theorem email_fails_with_example_config
        (env : EmailTool.Env) (this : ToolManager.This)
        (args : JsValue) (id : jsstring) :
  EmailTool.CONFIG_EMAIL env = Config.EMAIL ->
  nullish args = false ->
  truthy (get_prop (js "to") args) = true ->
  truthy (get_prop (js "subject") args) = true ->
  truthy (get_prop (js "body") args) = true ->
  ToolManager.findTool (ToolManager.tools this) (js "sendEmail")
  = Some (EmailTool.instance env) ->
  EmailTool.execute env args
  = Throw (TypeError (CannotReadProperty (js "USER") JUndefined))
  /\ ToolManager.handleToolCall
       {| ToolManager.name := js "sendEmail"; ToolManager.args := args;
          ToolManager.id := id |} this
     = (Normal (ToolManager.functionResponses
                  (JObj [(js "error",
                          JStr (js "Cannot read properties of undefined (reading 'USER')"))])
                  id),
        this).
Proof.
  intros Hcfg Hargs Hto Hsubject Hbody Hfind.
  assert (EmailTool.execute env args
          = Throw (TypeError (CannotReadProperty (js "USER") JUndefined))) as Hexec.
  { rewrite execute_past_validation by assumption.
    unfold EmailTool.config_email. rewrite Hcfg. reflexivity. }
  split; [exact Hexec|].
  rewrite handleToolCall_unfold. cbn [ToolManager.name ToolManager.args ToolManager.id].
  rewrite Hfind. cbn [Tool.falsy EmailTool.instance Tool.call_execute Tool.execute].
  rewrite Hexec. reflexivity.
Qed.

(** An instance: credentials in the environment do not help. *)
Lemma email_fails_with_example_config_witness :
  EmailTool.execute
    {| EmailTool.CONFIG_EMAIL := Config.EMAIL;
       EmailTool.EMAIL_USER := JStr (js "me@x.y");
       EmailTool.EMAIL_PASSWORD := JStr (js "pw");
       EmailTool.sendMail := fun _ _ => Normal JUndefined |}
    (JObj [(js "to", JStr (js "a@b.c")); (js "subject", JStr (js "s"));
           (js "body", JStr (js "b"))])
  = Throw (TypeError (CannotReadProperty (js "USER") JUndefined))
  /\ ToolManager.handleToolCall
       {| ToolManager.name := js "sendEmail";
          ToolManager.args :=
            JObj [(js "to", JStr (js "a@b.c")); (js "subject", JStr (js "s"));
                  (js "body", JStr (js "b"))];
          ToolManager.id := js "m1" |}
       {| ToolManager.tools :=
            [(js "email",
              EmailTool.instance
                {| EmailTool.CONFIG_EMAIL := Config.EMAIL;
                   EmailTool.EMAIL_USER := JStr (js "me@x.y");
                   EmailTool.EMAIL_PASSWORD := JStr (js "pw");
                   EmailTool.sendMail := fun _ _ => Normal JUndefined |})] |}
     = (Normal (ToolManager.functionResponses
                  (JObj [(js "error",
                          JStr (js "Cannot read properties of undefined (reading 'USER')"))])
                  (js "m1")),
        {| ToolManager.tools :=
            [(js "email",
              EmailTool.instance
                {| EmailTool.CONFIG_EMAIL := Config.EMAIL;
                   EmailTool.EMAIL_USER := JStr (js "me@x.y");
                   EmailTool.EMAIL_PASSWORD := JStr (js "pw");
                   EmailTool.sendMail := fun _ _ => Normal JUndefined |})] |}).
Proof.
  apply (email_fails_with_example_config
           {| EmailTool.CONFIG_EMAIL := Config.EMAIL;
              EmailTool.EMAIL_USER := JStr (js "me@x.y");
              EmailTool.EMAIL_PASSWORD := JStr (js "pw");
              EmailTool.sendMail := fun _ _ => Normal JUndefined |});
    reflexivity.
Defined.

(** ** More on the manager *)

Section ManagerMore.
Import ToolManager.

Lemma Map_get_app_None (m m' : ToolMap) (k : jsstring) :
  Map_get (m ++ m') k = None -> Map_get m k = None.
Proof.
  induction m as [|[k' v'] m IH]; simpl; [reflexivity|].
  destruct (str_eqb k k'); [discriminate | exact IH].
Qed.

Lemma registrations_keep_entries (rs : list (jsstring * ToolValue))
      (this : This) (k : jsstring) (v : ToolValue) :
  Map_get (tools this) k = Some v ->
  Map_get (tools (registrations rs this)) k = Some v.
Proof.
  revert this. induction rs as [|[name tool] rs IH]; intros this Hget; simpl;
    [exact Hget|].
  apply IH, registerTool_keeps_entries, Hget.
Qed.

Lemma handleToolCall_found (functionCall : FunctionCall) (this : This)
      (tool : ToolValue) (outcome : Completion JsValue) :
  findTool (tools this) (name functionCall) = Some tool ->
  Tool.falsy tool = false ->
  Tool.call_execute tool (args functionCall) = Tool.settle outcome ->
  handleToolCall functionCall this
  = (Normal (envelope_of outcome (id functionCall)), this).
Proof.
  intros Hfind Husable Hsettled.
  rewrite handleToolCall_unfold, Hfind, Husable, Hsettled.
  destruct outcome; reflexivity.
Qed.

End ManagerMore.

(** The registry is append-only, and the first registration under a name
    wins: after any sequence of [registerTool] calls, whether they succeed
    or throw, the registry is the former one, unchanged and in the same
    order, followed by the entries that were accepted; each of these is
    one of the offered tools, has a [getDeclaration] method and came under
    a name the former registry did not have. *)
Theorem registry_is_append_only
        (this : ToolManager.This) (rs : list (jsstring * ToolValue)) :
  exists added,
    ToolManager.tools (registrations rs this) = ToolManager.tools this ++ added
    /\ forall entry,
         In entry added ->
         In entry rs
         /\ Tool.has_getDeclaration (snd entry) = true
         /\ ToolManager.Map_get (ToolManager.tools this) (fst entry) = None.
Proof.
  revert this. induction rs as [|[name tool] rs IH]; intros this; simpl.
  - exists []. split; [now rewrite app_nil_r | intros entry []].
  - destruct (registerTool_outcome name tool this)
      as [[e ->] | (Hnew & Hdecl & ->)]; cbn [snd].
    + destruct (IH this) as (added & Htools & Hadded).
      exists added. split; [exact Htools|].
      intros entry Hin. destruct (Hadded entry Hin) as (Hrs & Hd & Hget).
      repeat split; [now right | exact Hd | exact Hget].
    + destruct (IH {| ToolManager.tools :=
                        ToolManager.tools this ++ [(name, tool)] |})
        as (added & Htools & Hadded).
      cbn [ToolManager.tools] in Htools, Hadded.
      exists ((name, tool) :: added).
      split; [now rewrite Htools, <- app_assoc|].
      intros entry [<- | Hin].
      * repeat split; [now left | exact Hdecl | now apply Map_has_false].
      * destruct (Hadded entry Hin) as (Hrs & Hd & Hget).
        repeat split; [now right | exact Hd |].
        now apply Map_get_app_None in Hget.
Qed.

(** The default tools cannot be replaced or removed: when construction
    succeeds, then after any later [registerTool] calls the names
    [get_weather_on_date] and [sendEmail] still stand for the weather tool
    and the mail tool of construction, and a call under either name returns
    an envelope. *)
Theorem default_tools_persist
        (w : ToolManager.World) (rs : list (jsstring * ToolValue))
        (args : JsValue) (id : jsstring) :
  Tool.has_getDeclaration (ToolManager.googleSearch w) = true ->
  let this := registrations rs (snd (ToolManager.constructor w)) in
  ToolManager.findTool (ToolManager.tools this) (js "get_weather_on_date")
  = Some (WeatherTool.instance (ToolManager.today w))
  /\ ToolManager.findTool (ToolManager.tools this) (js "sendEmail")
     = Some (EmailTool.instance (ToolManager.mail w))
  /\ ToolManager.handleToolCall
       {| ToolManager.name := js "get_weather_on_date";
          ToolManager.args := args; ToolManager.id := id |} this
     = (Normal (envelope_of
                  (WeatherTool.execute (ToolManager.today w) args) id), this)
  /\ ToolManager.handleToolCall
       {| ToolManager.name := js "sendEmail";
          ToolManager.args := args; ToolManager.id := id |} this
     = (Normal (envelope_of
                  (EmailTool.execute (ToolManager.mail w) args) id), this).
Proof.
  intros Hg this.
  assert (ToolManager.findTool (ToolManager.tools this) (js "get_weather_on_date")
          = Some (WeatherTool.instance (ToolManager.today w))) as Hw.
  { apply registrations_keep_entries.
    rewrite (constructor_registers_defaults w Hg). reflexivity. }
  assert (ToolManager.findTool (ToolManager.tools this) (js "sendEmail")
          = Some (EmailTool.instance (ToolManager.mail w))) as He.
  { apply registrations_keep_entries.
    rewrite (constructor_registers_defaults w Hg). reflexivity. }
  split; [exact Hw|]. split; [exact He|].
  split.
  - now apply (handleToolCall_found
                 {| ToolManager.name := js "get_weather_on_date";
                    ToolManager.args := args; ToolManager.id := id |} this
                 (WeatherTool.instance (ToolManager.today w))
                 (WeatherTool.execute (ToolManager.today w) args)).
  - now apply (handleToolCall_found
                 {| ToolManager.name := js "sendEmail";
                    ToolManager.args := args; ToolManager.id := id |} this
                 (EmailTool.instance (ToolManager.mail w))
                 (EmailTool.execute (ToolManager.mail w) args)).
Qed.

(** An instance: someone tries to take the names [weather] and
    [sendEmail]. *)
Lemma default_tools_persist_witness :
  ToolManager.findTool
    (ToolManager.tools
       (registrations [(js "weather", Sample.broken_tool);
                       (js "sendEmail", Sample.broken_tool)]
          (snd (ToolManager.constructor Sample.world))))
    (js "get_weather_on_date")
  = Some (WeatherTool.instance Sample.march_1st)
  /\ ToolManager.findTool
       (ToolManager.tools
          (registrations [(js "weather", Sample.broken_tool);
                          (js "sendEmail", Sample.broken_tool)]
             (snd (ToolManager.constructor Sample.world))))
       (js "sendEmail")
     = Some (EmailTool.instance Sample.no_credentials).
Proof.
  pose proof (default_tools_persist Sample.world
                [(js "weather", Sample.broken_tool);
                 (js "sendEmail", Sample.broken_tool)]
                (JObj []) (js "x") eq_refl) as H.
  exact (conj (proj1 H) (proj1 (proj2 H))).
Defined.

(** Read after write: once [registerTool] has accepted a tool under a name
    that is no alias, a call under that name runs that tool's [execute].
    What [execute] returns comes back as the [output] of the one entry,
    under the call's id; a failure whose message can be read comes back as
    its [error]; and when [execute] rejects with [null] or [undefined],
    [handleToolCall] itself throws the fault of reading [message]. *)
Theorem registered_tool_is_dispatched
        (this this' : ToolManager.This) (name : jsstring) (tool : ToolValue)
        (args : JsValue) (id : jsstring) :
  ToolManager.registerTool name tool this = (Normal tt, this') ->
  name <> js "get_weather_on_date" ->
  name <> js "sendEmail" ->
  ToolManager.handleToolCall
    {| ToolManager.name := name; ToolManager.args := args; ToolManager.id := id |}
    this'
  = (match Tool.call_execute tool args with
     | Tool.Fulfilled result =>
         Normal (JObj [(js "functionResponses",
                        JArr [JObj [(js "response", JObj [(js "output", result)]);
                                    (js "id", JStr id)]])])
     | Tool.Rejected (Tool.ErrorObject e) =>
         Normal (JObj [(js "functionResponses",
                        JArr [JObj [(js "response",
                                     JObj [(js "error", JStr (message e))]);
                                    (js "id", JStr id)]])])
     | Tool.Rejected (Tool.OtherValue v) =>
         if nullish v
         then Throw (TypeError (CannotReadProperty (js "message") v))
         else
           Normal (JObj [(js "functionResponses",
                          JArr [JObj [(js "response",
                                       JObj [(js "error",
                                              get_prop (js "message") v)]);
                                      (js "id", JStr id)]])])
     end, this').
Proof.
  intros Hreg Hw He.
  destruct (registerTool_outcome name tool this)
    as [[e Hthrow] | (Hnew & Hdecl & Hok)]; [congruence|].
  rewrite Hok in Hreg. injection Hreg as <-.
  rewrite handleToolCall_unfold. cbn [ToolManager.name ToolManager.tools
                                      ToolManager.args ToolManager.id].
  rewrite findTool_direct by assumption.
  rewrite <- (Map_set_fresh (ToolManager.tools this) name tool)
    by (now apply Map_has_false).
  rewrite Map_get_set_same.
  assert (Tool.falsy tool = false) as ->
    by (destruct tool; [discriminate Hdecl | reflexivity]).
  destruct (Tool.call_execute tool args) as [result | [e | v]];
    try reflexivity.
  simpl. destruct (nullish v); reflexivity.
Qed.

(** An instance: the tool that rejects with no reason, registered as
    [flaky] in an empty registry. *)
Lemma registered_tool_is_dispatched_witness :
  ToolManager.handleToolCall
    {| ToolManager.name := js "flaky"; ToolManager.args := JObj [];
       ToolManager.id := js "q" |}
    {| ToolManager.tools := [(js "flaky", Sample.rejecting_tool)] |}
  = (Throw (TypeError (CannotReadProperty (js "message") JUndefined)),
     {| ToolManager.tools := [(js "flaky", Sample.rejecting_tool)] |}).
Proof.
  apply (registered_tool_is_dispatched {| ToolManager.tools := [] |}
           {| ToolManager.tools := [(js "flaky", Sample.rejecting_tool)] |}
           (js "flaky") Sample.rejecting_tool (JObj []) (js "q"));
    [reflexivity | vm_compute; discriminate | vm_compute; discriminate].
Defined.

(** A tool that has [getDeclaration] but no [execute] is accepted, and the
    defect shows only when it is called: the call does not throw, it
    returns the error entry of the fault [tool.execute is not a
    function]. *)
Theorem tool_without_execute_fails_at_call
        (this : ToolManager.This) (name : jsstring) (tool : ToolValue)
        (args : JsValue) (id : jsstring) :
  ToolManager.Map_has (ToolManager.tools this) name = false ->
  Tool.has_getDeclaration tool = true ->
  Tool.has_execute tool = false ->
  name <> js "get_weather_on_date" ->
  name <> js "sendEmail" ->
  exists this',
    ToolManager.registerTool name tool this = (Normal tt, this')
    /\ ToolManager.handleToolCall
         {| ToolManager.name := name; ToolManager.args := args;
            ToolManager.id := id |} this'
       = (Normal (ToolManager.functionResponses
                    (JObj [(js "error", JStr (js "tool.execute is not a function"))])
                    id),
          this').
Proof.
  intros Hnew Hdecl Hexec Hw He.
  eexists. split; [now apply registerTool_accepts|].
  rewrite handleToolCall_unfold. cbn [ToolManager.name ToolManager.tools].
  rewrite findTool_direct by assumption.
  rewrite <- (Map_set_fresh (ToolManager.tools this) name tool)
    by (now apply Map_has_false).
  rewrite Map_get_set_same.
  destruct tool as [v | [d [f|]]]; try discriminate. reflexivity.
Qed.

(** An instance: a tool that only describes itself. *)
Lemma tool_without_execute_fails_at_call_witness :
  exists this',
    ToolManager.registerTool (js "stub") Sample.describe_only Sample.manager
    = (Normal tt, this')
    /\ ToolManager.handleToolCall
         {| ToolManager.name := js "stub"; ToolManager.args := JObj [];
            ToolManager.id := js "s1" |} this'
       = (Normal (ToolManager.functionResponses
                    (JObj [(js "error", JStr (js "tool.execute is not a function"))])
                    (js "s1")),
          this').
Proof.
  apply (tool_without_execute_fails_at_call Sample.manager (js "stub")
           Sample.describe_only (JObj []) (js "s1"));
    [reflexivity | reflexivity | reflexivity
     | vm_compute; discriminate | vm_compute; discriminate].
Defined.

(** Construction stops at the first default tool that is refused: when the
    search tool has no [getDeclaration] method, the constructor throws the
    invalid-instance error for [googleSearch] and the registry is left
    empty, the weather tool and the mail tool never being registered. *)
Theorem constructor_stops_at_invalid_search_tool (w : ToolManager.World) :
  Tool.has_getDeclaration (ToolManager.googleSearch w) = false ->
  ToolManager.constructor w
  = (Throw (ToolManager.invalid_tool_instance (js "googleSearch")),
     {| ToolManager.tools := [] |})
  /\ forall name,
       ToolManager.findTool
         (ToolManager.tools (snd (ToolManager.constructor w))) name = None.
Proof.
  intros Hg.
  assert (ToolManager.constructor w
          = (Throw (ToolManager.invalid_tool_instance (js "googleSearch")),
             {| ToolManager.tools := [] |})) as Hc.
  { unfold ToolManager.constructor, ToolManager.registerDefaultTools,
      ToolManager.mbind.
    rewrite registerTool_unfold. cbn [ToolManager.tools ToolManager.Map_has
                                       ToolManager.Map_get].
    now rewrite Hg, orb_true_r. }
  split; [exact Hc|].
  intros name. rewrite Hc. unfold ToolManager.findTool. simpl.
  destruct (str_eqb name (js "get_weather_on_date")); [reflexivity|].
  destruct (str_eqb name (js "sendEmail")); reflexivity.
Qed.

(** An instance: [undefined] in place of the search tool. *)
Lemma constructor_stops_at_invalid_search_tool_witness :
  ToolManager.constructor
    {| ToolManager.googleSearch := Plain JUndefined;
       ToolManager.today := Sample.march_1st;
       ToolManager.mail := Sample.no_credentials |}
  = (Throw (ToolManager.invalid_tool_instance (js "googleSearch")),
     {| ToolManager.tools := [] |}).
Proof.
  apply (proj1 (constructor_stops_at_invalid_search_tool
                  {| ToolManager.googleSearch := Plain JUndefined;
                     ToolManager.today := Sample.march_1st;
                     ToolManager.mail := Sample.no_credentials |} eq_refl)).
Defined.

(** A tool can be called under its registry key as well as under its
    alias: when a usable tool is stored under [weather] (or [email]), the
    calls named [weather] and [get_weather_on_date] (or [email] and
    [sendEmail]) have the same outcome. *)
Theorem alias_and_key_agree
        (this : ToolManager.This) (alias key : jsstring) (tool : ToolValue)
        (args : JsValue) (id : jsstring) :
  (alias = js "get_weather_on_date" /\ key = js "weather")
  \/ (alias = js "sendEmail" /\ key = js "email") ->
  ToolManager.Map_get (ToolManager.tools this) key = Some tool ->
  Tool.falsy tool = false ->
  ToolManager.handleToolCall
    {| ToolManager.name := alias; ToolManager.args := args; ToolManager.id := id |}
    this
  = ToolManager.handleToolCall
      {| ToolManager.name := key; ToolManager.args := args; ToolManager.id := id |}
      this.
Proof.
  intros Hpair Hget Husable.
  rewrite !handleToolCall_unfold.
  cbn [ToolManager.name ToolManager.args ToolManager.id].
  assert (ToolManager.findTool (ToolManager.tools this) alias = Some tool) as ->
    by (destruct Hpair as [[-> ->] | [-> ->]]; exact Hget).
  assert (ToolManager.findTool (ToolManager.tools this) key = Some tool) as ->.
  { rewrite findTool_direct;
      [exact Hget | destruct Hpair as [[_ ->] | [_ ->]]; vm_compute; discriminate
       | destruct Hpair as [[_ ->] | [_ ->]]; vm_compute; discriminate]. }
  now rewrite Husable.
Qed.

(** An instance: the mail tool of a freshly built manager. *)
Lemma alias_and_key_agree_witness :
  ToolManager.handleToolCall (Sample.mail_without_recipient (js "m"))
    Sample.manager
  = ToolManager.handleToolCall
      {| ToolManager.name := js "email";
         ToolManager.args := ToolManager.args (Sample.mail_without_recipient (js "m"));
         ToolManager.id := js "m" |}
      Sample.manager.
Proof.
  apply (alias_and_key_agree Sample.manager (js "sendEmail") (js "email")
           (EmailTool.instance Sample.no_credentials));
    [right; split; reflexivity | reflexivity | reflexivity].
Defined.

(** From construction to the answer: on a freshly built manager, a call
    named [get_weather_on_date] with a location string and a non-empty date
    string returns one entry with the call's id, whose output repeats the
    location and the date. *)
Theorem weather_call_end_to_end
        (w : ToolManager.World) (args : JsValue) (location date id : jsstring) :
  Tool.has_getDeclaration (ToolManager.googleSearch w) = true ->
  get_prop (js "location") args = JStr location ->
  get_prop (js "date") args = JStr date ->
  date <> [] ->
  exists this output,
    ToolManager.constructor w = (Normal tt, this)
    /\ ToolManager.handleToolCall
         {| ToolManager.name := js "get_weather_on_date";
            ToolManager.args := args; ToolManager.id := id |} this
       = (Normal (ToolManager.functionResponses (JObj [(js "output", output)]) id),
          this)
    /\ get_prop (js "location") output = JStr location
    /\ get_prop (js "date") output = JStr date.
Proof.
  intros Hg Hl Hd Hne.
  destruct (execute_on_strings (ToolManager.today w) args location date Hl Hd)
    as (condition & temp & _ & _ & _ & _ & Hexec).
  rewrite (forecastDate_of_nonempty _ _ Hne) in Hexec.
  eexists; eexists. split; [now apply constructor_registers_defaults|].
  split.
  - rewrite (handleToolCall_found _ _ (WeatherTool.instance (ToolManager.today w))
               (WeatherTool.execute (ToolManager.today w) args))
      by reflexivity.
    cbn [ToolManager.args ToolManager.id].
    rewrite Hexec. reflexivity.
  - split; reflexivity.
Qed.

(** An instance: Manila on 2024-03-01, call [a]. *)
Lemma weather_call_end_to_end_witness :
  exists this output,
    ToolManager.constructor Sample.world = (Normal tt, this)
    /\ ToolManager.handleToolCall
         {| ToolManager.name := js "get_weather_on_date";
            ToolManager.args := Sample.manila (js "2024-03-01");
            ToolManager.id := js "a" |} this
       = (Normal (ToolManager.functionResponses (JObj [(js "output", output)])
                    (js "a")),
          this)
    /\ get_prop (js "location") output = JStr (js "Manila")
    /\ get_prop (js "date") output = JStr (js "2024-03-01").
Proof.
  apply (weather_call_end_to_end Sample.world (Sample.manila (js "2024-03-01"))
           (js "Manila") (js "2024-03-01") (js "a"));
    [reflexivity | reflexivity | reflexivity | vm_compute; discriminate].
Defined.

(** ** More on the aggregation of declarations *)

Section DeclarationMore.
Import ToolManager.

Lemma declared_inv (entry : jsstring * ToolValue) (d : JsValue) :
  In d (declared entry) <->
  exists declaration,
    Tool.call_getDeclaration (snd entry) = Normal declaration
    /\ truthy declaration = true
    /\ d = JObj [(js "name", JStr (fst entry)); (js "declaration", declaration)].
Proof.
  destruct entry as [k tool]. unfold declared. cbn [fst snd].
  destruct (Tool.call_getDeclaration tool) as [declaration|e].
  - destruct (truthy declaration) eqn:Ht.
    + split.
      * intros [<- | []]. eauto.
      * intros (d' & Hd & _ & ->). injection Hd as <-. now left.
    + split; [intros [] | intros (d' & Hd & Ht' & _)].
      injection Hd as <-. congruence.
  - split; [intros [] | intros (d' & Hd & _)]. discriminate Hd.
Qed.

Lemma declared_length (entry : jsstring * ToolValue) :
  (length (declared entry) <= 1)%nat.
Proof.
  destruct entry as [k tool]. unfold declared.
  destruct (Tool.call_getDeclaration tool) as [declaration|e]; [|simpl; lia].
  destruct (truthy declaration); simpl; lia.
Qed.

Lemma flat_map_declared_length (m : ToolMap) :
  (length (flat_map declared m) <= length m)%nat.
Proof.
  induction m as [|entry m IH]; simpl; [lia|].
  rewrite length_app. pose proof (declared_length entry). lia.
Qed.

Lemma describes_has_getDeclaration (tool : ToolValue) (d : JsValue) :
  Tool.call_getDeclaration tool = Normal d -> Tool.has_getDeclaration tool = true.
Proof.
  destruct tool as [v | [[f|] x]]; simpl; try discriminate; [|reflexivity].
  destruct (nullish v); discriminate.
Qed.

End DeclarationMore.

(** The aggregate holds an entry for a tool exactly when the tool's
    [getDeclaration] returns a truthy declaration: every entry pairs the
    name of a registered tool with what that tool declared, every such tool
    has its entry, and there are never more entries than tools. *)
Theorem declarations_come_from_registry (this : ToolManager.This) :
  exists declarations,
    ToolManager.getToolDeclarations this = (Normal (JArr declarations), this)
    /\ (length declarations <= length (ToolManager.tools this))%nat
    /\ forall d,
         In d declarations <->
         exists name tool declaration,
           In (name, tool) (ToolManager.tools this)
           /\ Tool.call_getDeclaration tool = Normal declaration
           /\ truthy declaration = true
           /\ d = JObj [(js "name", JStr name); (js "declaration", declaration)].
Proof.
  exists (flat_map declared (ToolManager.tools this)).
  split; [apply getToolDeclarations_total|].
  split; [apply flat_map_declared_length|].
  intros d. rewrite in_flat_map. split.
  - intros ([name tool] & Hin & Hd). apply declared_inv in Hd.
    destruct Hd as (declaration & Hcall & Ht & ->).
    exists name, tool, declaration. repeat split; assumption.
  - intros (name & tool & declaration & Hin & Hcall & Ht & ->).
    exists (name, tool). split; [exact Hin|].
    apply declared_inv. exists declaration. repeat split; assumption.
Qed.

(** Registration and aggregation compose: after [registerTool] has
    accepted a tool that declares itself, the aggregate is the former one
    with the new tool's entry added at the end. *)
Theorem declaration_appended_after_registration
        (this this' : ToolManager.This) (name : jsstring) (tool : ToolValue)
        (declaration : JsValue) :
  ToolManager.registerTool name tool this = (Normal tt, this') ->
  Tool.call_getDeclaration tool = Normal declaration ->
  truthy declaration = true ->
  exists declarations,
    ToolManager.getToolDeclarations this = (Normal (JArr declarations), this)
    /\ ToolManager.getToolDeclarations this'
       = (Normal (JArr (declarations
                          ++ [JObj [(js "name", JStr name);
                                    (js "declaration", declaration)]])),
          this').
Proof.
  intros Hreg Hcall Ht.
  destruct (registerTool_outcome name tool this)
    as [[e Hthrow] | (_ & _ & Hok)]; [congruence|].
  rewrite Hok in Hreg. injection Hreg as <-.
  exists (flat_map declared (ToolManager.tools this)).
  split; [apply getToolDeclarations_total|].
  rewrite getToolDeclarations_total. cbn [ToolManager.tools].
  rewrite flat_map_app. cbn [flat_map]. unfold declared at 2.
  now rewrite Hcall, Ht, app_nil_r.
Qed.

(** An instance: the search tool registered as [lookup] beside the
    defaults. *)
Lemma declaration_appended_after_registration_witness :
  exists declarations,
    ToolManager.getToolDeclarations Sample.manager
    = (Normal (JArr declarations), Sample.manager)
    /\ ToolManager.getToolDeclarations
         {| ToolManager.tools :=
              ToolManager.tools Sample.manager ++ [(js "lookup", Sample.search_tool)] |}
       = (Normal (JArr (declarations
                          ++ [JObj [(js "name", JStr (js "lookup"));
                                    (js "declaration",
                                     JObj [(js "name", JStr (js "googleSearch"))])]])),
          {| ToolManager.tools :=
              ToolManager.tools Sample.manager ++ [(js "lookup", Sample.search_tool)] |}).
Proof.
  apply (declaration_appended_after_registration Sample.manager
           {| ToolManager.tools :=
                ToolManager.tools Sample.manager ++ [(js "lookup", Sample.search_tool)] |}
           (js "lookup") Sample.search_tool
           (JObj [(js "name", JStr (js "googleSearch"))]));
    reflexivity.
Defined.

(** What a freshly built manager advertises can be called: its aggregate
    has the entries of the search tool, the weather tool and the mail tool,
    in this order, and the function names that the weather tool and the
    mail tool declare are names under which [handleToolCall] finds these
    very tools. *)
Theorem advertised_names_are_dispatched
        (w : ToolManager.World) (search_declaration : JsValue) :
  Tool.call_getDeclaration (ToolManager.googleSearch w) = Normal search_declaration ->
  truthy search_declaration = true ->
  exists this weather_declaration email_declaration weather_name email_name,
    ToolManager.constructor w = (Normal tt, this)
    /\ ToolManager.getToolDeclarations this
       = (Normal (JArr [
            JObj [(js "name", JStr (js "googleSearch"));
                  (js "declaration", search_declaration)];
            JObj [(js "name", JStr (js "weather"));
                  (js "declaration", JArr [weather_declaration])];
            JObj [(js "name", JStr (js "email"));
                  (js "declaration", email_declaration)]]),
          this)
    /\ get_prop (js "name") weather_declaration = JStr weather_name
    /\ ToolManager.findTool (ToolManager.tools this) weather_name
       = Some (WeatherTool.instance (ToolManager.today w))
    /\ get_prop (js "name") email_declaration = JStr email_name
    /\ ToolManager.findTool (ToolManager.tools this) email_name
       = Some (EmailTool.instance (ToolManager.mail w)).
Proof.
  intros Hcall Ht.
  pose proof (describes_has_getDeclaration _ _ Hcall) as Hg.
  do 5 eexists.
  split; [now apply constructor_registers_defaults|].
  split.
  - rewrite getToolDeclarations_total. cbn [ToolManager.tools flat_map].
    unfold declared at 1. rewrite Hcall, Ht. reflexivity.
  - repeat split; reflexivity.
Qed.

(** An instance: the sample world. *)
Lemma advertised_names_are_dispatched_witness :
  exists this weather_declaration email_declaration weather_name email_name,
    ToolManager.constructor Sample.world = (Normal tt, this)
    /\ ToolManager.getToolDeclarations this
       = (Normal (JArr [
            JObj [(js "name", JStr (js "googleSearch"));
                  (js "declaration", JObj [(js "name", JStr (js "googleSearch"))])];
            JObj [(js "name", JStr (js "weather"));
                  (js "declaration", JArr [weather_declaration])];
            JObj [(js "name", JStr (js "email"));
                  (js "declaration", email_declaration)]]),
          this)
    /\ get_prop (js "name") weather_declaration = JStr weather_name
    /\ ToolManager.findTool (ToolManager.tools this) weather_name
       = Some (WeatherTool.instance Sample.march_1st)
    /\ get_prop (js "name") email_declaration = JStr email_name
    /\ ToolManager.findTool (ToolManager.tools this) email_name
       = Some (EmailTool.instance Sample.no_credentials).
Proof.
  apply (advertised_names_are_dispatched Sample.world
           (JObj [(js "name", JStr (js "googleSearch"))]));
    reflexivity.
Defined.
